(** * DaVinci Resolve MCP: page guard, error wrapper, envelopes, validators

    A shallow embedding of the cross-cutting utilities of the server
    ([src/utils/response_formatter.py], [src/utils/validation.py],
    [src/utils/error_handler.py], [src/utils/page_manager.py]) and of the
    operations that exercise them ([src/api/core_operations.py],
    [src/api/cache_management.py], [src/api/fusion_operations_clean.py]),
    followed by the properties established about them.

    Conventions of the embedding:
    - Python values are the inductive [pyval]; a dict with string keys is a
      [gmap string pyval] (dict equality ignores insertion order).
    - A Python [float] is [pyfloat]: NaN, the two infinities, or the dyadic
      rational [m * 2^e]; an [int] is an unbounded [Z].
    - [lower], [is_space] and [strip] are the ASCII parts of [str.lower()]
      and [str.strip()]; they serve where only ASCII names are compared (the
      page names, the blend modes).  For arbitrary text the module [text]
      takes the two methods of the interpreter as parameters.
    - Exceptions are instances of classes rooted at [Exception]
      (signals deriving only from BaseException are outside the model).
    - Host calls are transitions of an abstract host state; Python code that
      performs them lives in the state-and-exception monad [M].
    - Calls to the [logging] module have no influence on results and are left
      out. *)

From stdpp Require Import gmap strings list fin_maps.
From Stdlib Require Import Ascii String ZArith Lia.

#[local] Set Warnings "-register-all,-clear-no-such-hyp".

Local Open Scope Z_scope.
Local Open Scope string_scope.

(* ===================================================================== *)
(** ** Python data *)
(* ===================================================================== *)

(** IEEE doubles up to what comparison can observe. *)
Inductive pyfloat : Type :=
| FNaN
| FInf (negative : bool)
| FFin (m e : Z).

Inductive number : Type :=
| NInt (z : Z)
| NFloat (f : pyfloat).

Inductive pyval : Type :=
| VNone
| VBool (b : bool)
| VNum (n : number)
| VStr (s : string)
| VList (l : list pyval)
| VDict (d : gmap string pyval).

(** An argument or closure variable is plain data or the host handle (the
    object returned by [scriptapp("Resolve")]). *)
Inductive pyobj : Type :=
| Val (v : pyval)
| Resolve.

Definition float_of_number (n : number) : pyfloat :=
  match n with
  | NInt z => FFin z 0
  | NFloat f => f
  end.

(** Three-way comparison of two floats; [None] when either is NaN. *)
Definition float_cmp (x y : pyfloat) : option comparison :=
  match x, y with
  | FNaN, _ | _, FNaN => None
  | FInf true, FInf true => Some Eq
  | FInf false, FInf false => Some Eq
  | FInf true, _ => Some Lt
  | FInf false, _ => Some Gt
  | _, FInf true => Some Gt
  | _, FInf false => Some Lt
  | FFin m1 e1, FFin m2 e2 =>
      let e := Z.min e1 e2 in
      Some (Z.compare (m1 * 2 ^ (e1 - e)) (m2 * 2 ^ (e2 - e)))
  end.

Definition num_cmp (x y : number) : option comparison :=
  float_cmp (float_of_number x) (float_of_number y).

(** Python's [x < y], [x > y], [x <= y] on numbers. *)
Definition num_lt (x y : number) : bool :=
  match num_cmp x y with Some Lt => true | _ => false end.
Definition num_gt (x y : number) : bool :=
  match num_cmp x y with Some Gt => true | _ => false end.
Definition num_le (x y : number) : bool :=
  match num_cmp x y with Some Lt | Some Eq => true | _ => false end.

Definition is_nan (x : number) : bool :=
  match x with NFloat FNaN => true | _ => false end.

(** [bool(v)]. *)
Definition truthy (v : pyval) : bool :=
  match v with
  | VNone => false
  | VBool b => b
  | VNum n =>
      match float_of_number n with
      | FFin m _ => negb (m =? 0)%Z
      | _ => true
      end
  | VStr s => negb (String.eqb s "")
  | VList l => match l with [] => false | _ => true end
  | VDict d => negb (Nat.eqb (size d) 0)
  end.

Definition obj_truthy (o : pyobj) : bool :=
  match o with
  | Val v => truthy v
  | Resolve => true
  end.

(** [x is None]. *)
Definition is_None (v : pyval) : bool :=
  match v with VNone => true | _ => false end.

(** [type(v).__name__]. *)
Definition type_name (v : pyval) : string :=
  match v with
  | VNone => "NoneType"
  | VBool _ => "bool"
  | VNum (NInt _) => "int"
  | VNum (NFloat _) => "float"
  | VStr _ => "str"
  | VList _ => "list"
  | VDict _ => "dict"
  end.

(** [d.update(e)]: the entries of [e] win. *)
Definition update (d e : gmap string pyval) : gmap string pyval := e ∪ d.

(* --------------------------------------------------------------------- *)
(** *** Strings *)

Definition lower_ascii (c : ascii) : ascii :=
  let n := nat_of_ascii c in
  if ((65 <=? n) && (n <=? 90))%nat then ascii_of_nat (n + 32) else c.

(** [s.lower()]. *)
Fixpoint lower (s : string) : string :=
  match s with
  | EmptyString => EmptyString
  | String c s' => String (lower_ascii c) (lower s')
  end.

Definition is_space (c : ascii) : bool :=
  let n := nat_of_ascii c in
  (((9 <=? n) && (n <=? 13)) || ((28 <=? n) && (n <=? 32)))%nat.

Fixpoint lstrip (s : string) : string :=
  match s with
  | EmptyString => EmptyString
  | String c s' => if is_space c then lstrip s' else s
  end.

(** [s.strip()]. *)
Definition strip (s : string) : string :=
  String.rev (lstrip (String.rev (lstrip s))).

(** [sep.join(l)]. *)
Fixpoint join (sep : string) (l : list string) : string :=
  match l with
  | [] => ""
  | [x] => x
  | x :: rest => x +:+ sep +:+ join sep rest
  end.

(** [x in l] for a list of strings. *)
Definition str_in (x : string) (l : list string) : bool :=
  existsb (String.eqb x) l.

(** [l.index(x)]: position of the first element equal to [x]. *)
Fixpoint index (x : string) (l : list string) : option nat :=
  match l with
  | [] => None
  | y :: rest => if String.eqb y x then Some 0%nat else S <$> index x rest
  end.

(* ===================================================================== *)
(** ** Exceptions and the effect monad *)
(* ===================================================================== *)

(** A class is [Exception] or a named class with one base; two classes are
    the same when their qualified names and ancestry agree. *)
Inductive pyclass : Type :=
| Exception_
| Subclass (qualname : string) (base : pyclass).

Global Instance pyclass_eq_dec : EqDecision pyclass.
Proof. solve_decision. Defined.

(** [issubclass(c, d)]. *)
Fixpoint issubclass (c d : pyclass) : bool :=
  if decide (c = d) then true
  else match c with
       | Exception_ => false
       | Subclass _ b => issubclass b d
       end.

(** A raised exception: its class and [str(e)]. *)
Record exn : Type := mk_exn { exn_class : pyclass; exn_str : string }.

Definition isinstance (e : exn) (c : pyclass) : bool :=
  issubclass (exn_class e) c.

Definition AttributeError : pyclass := Subclass "builtins.AttributeError" Exception_.

Inductive outcome (A : Type) : Type :=
| Return (a : A)
| Raise (e : exn).
Arguments Return {A} a.
Arguments Raise {A} e.

(** Computations over a state [St] that return or raise. *)
Definition M (St A : Type) : Type := St → outcome A * St.

Definition ret {St A} (a : A) : M St A := λ s, (Return a, s).
Definition raise {St A} (e : exn) : M St A := λ s, (Raise e, s).
Definition bind {St A B} (m : M St A) (k : A → M St B) : M St B :=
  λ s, match m s with
       | (Return a, s') => k a s'
       | (Raise e, s') => (Raise e, s')
       end.

Notation "'let*' x ':=' m 'in' k" := (bind m (λ x, k))
  (at level 20, x name, m at level 100, k at level 200, only parsing).

(** [try: m  except Exception as e: h e]. *)
Definition try_except {St A} (m : M St A) (h : exn → M St A) : M St A :=
  λ s, match m s with
       | (Return a, s') => (Return a, s')
       | (Raise e, s') => h e s'
       end.

(** [try: m  finally: fin]; an exception of [fin] replaces the outcome. *)
Definition try_finally {St A} (m : M St A) (fin : M St unit) : M St A :=
  λ s, match m s with
       | (r, s') =>
           match fin s' with
           | (Return _, s'') => (r, s'')
           | (Raise e, s'') => (Raise e, s'')
           end
       end.

(* ===================================================================== *)
(** ** response_formatter.py *)
(* ===================================================================== *)

Module response_formatter.

(** [success(message, data=None, **extra)] *)
Definition success (message : string) (data : pyval)
    (extra : gmap string pyval) : gmap string pyval :=
  let response := <["message" := VStr message]> (<["success" := VBool true]> ∅) in
  let response := if negb (is_None data) then <["data" := data]> response
                  else response in
  update response extra.

(** [error(message, error_code=None, details=None, **extra)] *)
Definition error (message : string) (error_code : pyval) (details : pyval)
    (extra : gmap string pyval) : gmap string pyval :=
  let response := <["message" := VStr message]> (<["success" := VBool false]> ∅) in
  let response := if truthy error_code then <["error_code" := error_code]> response
                  else response in
  let response := if negb (is_None details) then <["details" := details]> response
                  else response in
  update response extra.

(** [info(message, data=None, **extra)] *)
Definition info (message : string) (data : pyval)
    (extra : gmap string pyval) : gmap string pyval :=
  let response :=
    <["type" := VStr "info"]>
      (<["message" := VStr message]> (<["success" := VBool true]> ∅)) in
  let response := if negb (is_None data) then <["data" := data]> response
                  else response in
  update response extra.

Definition legacy_success (message : string) : string := "Success: " +:+ message.
Definition legacy_error (message : string) : string := "Error: " +:+ message.

End response_formatter.

(* ===================================================================== *)
(** ** The host application *)
(* ===================================================================== *)

(** The scripting object graph is an external collaborator.  Its behaviour is
    a parameter: a state type [S] and one transition per accessor the
    modelled code uses.  Accessors that return host objects are observed
    through the truthiness of what they return.  [AddToolAndConfigure]
    stands for lines 98-122 of [add_fusion_node] (obtaining the composition,
    [AddTool], [SetAttrs], [GetAttrs] and building the envelope). *)
Record HostAPI (S : Type) : Type := mkHostAPI {
  GetCurrentPage : S → outcome pyval;
  OpenPage : string → S → outcome pyval * S;
  GetProjectManager : S → outcome bool * S;
  GetCurrentProject : S → outcome bool * S;
  SetSetting : string → string → S → outcome pyval * S;
  AddToolAndConfigure : string → pyval → pyval → pyval → S → outcome pyval * S
}.
Arguments GetCurrentPage {S} _ _.
Arguments OpenPage {S} _ _ _.
Arguments GetProjectManager {S} _ _.
Arguments GetCurrentProject {S} _ _.
Arguments SetSetting {S} _ _ _ _.
Arguments AddToolAndConfigure {S} _ _ _ _ _ _.

(** Calls observed at the boundary between the server and the host. *)
Inductive call : Type :=
| CallGetCurrentPage
| CallOpenPage (page : string)
| CallWrapped (name : string).

(** The host state together with the calls made so far. *)
Record world (S : Type) : Type := mkWorld { host : S; calls : list call }.
Arguments mkWorld {S} _ _.
Arguments host {S} _.
Arguments calls {S} _.

Definition log {S} (c : call) (w : world S) : world S :=
  mkWorld (host w) (calls w ++ [c]).

(** Run a host transition inside the world, recording the call. *)
Definition host_call {S A} (c : call) (f : S → outcome A * S) : M (world S) A :=
  λ w, let '(r, s') := f (host w) in (r, mkWorld s' (calls w ++ [c])).

(** Host transitions that the properties below do not trace. *)
Definition host_step {S A} (f : S → outcome A * S) : M (world S) A :=
  λ w, let '(r, s') := f (host w) in (r, mkWorld s' (calls w)).

Definition no_attribute {St A} (v : pyval) (attr : string) : M St A :=
  raise (mk_exn AttributeError
    ("'" +:+ type_name v +:+ "' object has no attribute '" +:+ attr +:+ "'")).

(** A Python callable taking [*args, **kwargs]. *)
Definition pyfunc (St : Type) : Type :=
  list pyobj → gmap string pyobj → M St pyval.

Section method_calls.
Context {S : Type} (h : HostAPI S).

(** [resolve.GetCurrentPage()] *)
Definition call_GetCurrentPage (resolve : pyobj) : M (world S) pyval :=
  match resolve with
  | Resolve => host_call CallGetCurrentPage (λ s, (GetCurrentPage h s, s))
  | Val v => no_attribute v "GetCurrentPage"
  end.

(** [resolve.OpenPage(page)] *)
Definition call_OpenPage (resolve : pyobj) (page : string) : M (world S) pyval :=
  match resolve with
  | Resolve => host_call (CallOpenPage page) (OpenPage h page)
  | Val v => no_attribute v "OpenPage"
  end.

(** [resolve.GetProjectManager()], observed as truthy or falsy. *)
Definition call_GetProjectManager (resolve : pyobj) : M (world S) bool :=
  match resolve with
  | Resolve => host_step (GetProjectManager h)
  | Val v => no_attribute v "GetProjectManager"
  end.

(** [project_manager.GetCurrentProject()], observed as truthy or falsy. *)
Definition call_GetCurrentProject : M (world S) bool :=
  host_step (GetCurrentProject h).

(** [current_project.SetSetting(key, val)] *)
Definition call_SetSetting (key val : string) : M (world S) pyval :=
  host_step (SetSetting h key val).

(** The call of [func] on [args] and [kwargs], recorded as a call of the
    wrapped function. *)
Definition invoke (name : string) (func : pyfunc (world S)) (args : list pyobj)
    (kwargs : gmap string pyobj) : M (world S) pyval :=
  λ w, func args kwargs (log (CallWrapped name) w).

End method_calls.

(** Use a pure result inside a computation. *)
Definition lift {St A} (r : outcome A) : M St A := λ s, (r, s).

(* ===================================================================== *)
(** ** validation.py *)
(* ===================================================================== *)

Module validation.

Definition ValidationError : pyclass :=
  Subclass "src.utils.validation.ValidationError" Exception_.

(** [isinstance(v, (int, float))]; [bool] is a subclass of [int]. *)
Definition as_number (v : pyval) : option number :=
  match v with
  | VBool b => Some (NInt (if b then 1 else 0))
  | VNum n => Some n
  | _ => None
  end.

(** [isinstance(v, int)]. *)
Definition as_int (v : pyval) : option Z :=
  match v with
  | VBool b => Some (if b then 1 else 0)
  | VNum (NInt z) => Some z
  | _ => None
  end.

Section formatting.
(** Python's built-in rendering of numbers and lists inside f-strings. *)
Variable py_repr : pyval → string.

Definition fmt (v : pyval) : string :=
  match v with VStr s => s | _ => py_repr v end.

Definition validate_range (value : pyval) (min_val max_val : number)
    (name : string) : outcome unit :=
  match as_number value with
  | None =>
      Raise (mk_exn ValidationError
               (name +:+ " must be a number, got " +:+ type_name value))
  | Some v =>
      if num_lt v min_val || num_gt v max_val then
        Raise (mk_exn ValidationError
                 (name +:+ " must be between " +:+ fmt (VNum min_val) +:+ " and "
                    +:+ fmt (VNum max_val) +:+ ", got " +:+ fmt value))
      else Return tt
  end.

Definition validate_choice (value : pyval) (choices : list string)
    (name : string) (case_sensitive : bool) : outcome string :=
  match value with
  | VStr value =>
      let not_a_choice :=
        mk_exn ValidationError
          (name +:+ " must be one of " +:+ fmt (VList (VStr <$> choices))
             +:+ ", got '" +:+ value +:+ "'") in
      if case_sensitive then
        if negb (str_in value choices) then Raise not_a_choice
        else Return value
      else
        let value_lower := lower value in
        let choices_lower := lower <$> choices in
        if negb (str_in value_lower choices_lower) then Raise not_a_choice
        else
          match index value_lower choices_lower with
          | None =>
              Raise (mk_exn (Subclass "builtins.ValueError" Exception_)
                       (py_repr (VStr value_lower) +:+ " is not in list"))
          | Some index =>
              match choices !! index with
              | Some choice => Return choice
              | None =>
                  Raise (mk_exn (Subclass "builtins.IndexError"
                                   (Subclass "builtins.LookupError" Exception_))
                           "list index out of range")
              end
          end
  | _ =>
      Raise (mk_exn ValidationError
               (name +:+ " must be a string, got " +:+ type_name value))
  end.

Definition validate_positive_integer (value : pyval) (name : string)
    : outcome unit :=
  match as_int value with
  | None =>
      Raise (mk_exn ValidationError
               (name +:+ " must be an integer, got " +:+ type_name value))
  | Some z =>
      if (z <=? 0)%Z then
        Raise (mk_exn ValidationError
                 (name +:+ " must be positive, got " +:+ fmt value))
      else Return tt
  end.

End formatting.

Definition validate_non_empty_string (value : pyval) (name : string)
    : outcome unit :=
  match value with
  | VStr s =>
      if negb (truthy (VStr (strip s))) then
        Raise (mk_exn ValidationError (name +:+ " cannot be empty"))
      else Return tt
  | _ =>
      Raise (mk_exn ValidationError
               (name +:+ " must be a string, got " +:+ type_name value))
  end.

Definition validate_resolve_connection {S} (h : HostAPI S) (resolve : pyobj)
    : M (world S) unit :=
  match resolve with
  | Val VNone =>
      raise (mk_exn ValidationError "Not connected to DaVinci Resolve")
  | _ =>
      try_except
        (let* _ := call_GetCurrentPage h resolve in ret tt)
        (λ e, raise (mk_exn ValidationError
                       ("DaVinci Resolve connection error: " +:+ exn_str e)))
  end.

(** [validate_file_extension(path, allowed_extensions, name)];
    [splitext_ext path] is [os.path.splitext(path)[1]]. *)
Section file_extension.
Variable py_repr : pyval → string.
Variable splitext_ext : string → string.

(** One turn of the normalising loop: add the leading dot when it is
    missing, then lower-case. *)
Definition normalize_extension (ext : string) : string :=
  lower (if negb (String.prefix "." ext) then "." +:+ ext else ext).

Definition validate_file_extension (path : pyval) (allowed_extensions : list string)
    (name : string) : outcome unit :=
  match path with
  | VStr path =>
      let normalized_extensions := normalize_extension <$> allowed_extensions in
      let file_extension := lower (splitext_ext path) in
      if negb (str_in file_extension normalized_extensions) then
        Raise (mk_exn ValidationError
                 (name +:+ " must have one of these extensions: "
                    +:+ py_repr (VList (VStr <$> allowed_extensions))
                    +:+ ", got '" +:+ file_extension +:+ "'"))
      else Return tt
  | _ =>
      Raise (mk_exn ValidationError
               (name +:+ " must be a string, got " +:+ type_name path))
  end.

End file_extension.

(** [validate_params( **validators)(func)].  [validators] lists
    [validators.items()] in insertion order; [bound] is the outcome of
    [sig.bind] followed by [apply_defaults] on the call's arguments; [call]
    is the call of [func] on those arguments. *)
Section decorator.
Context {St A B : Type}.

(** The validation loop; [Some r] is an early [return r]. *)
Fixpoint run_validators (validators : list (string * (A → outcome B)))
    (arguments : gmap string A) : option pyval :=
  match validators with
  | [] => None
  | (param_name, validator) :: rest =>
      match arguments !! param_name with
      | Some value =>
          match validator value with
          | Return _ => run_validators rest arguments
          | Raise e =>
              if isinstance e ValidationError then
                Some (VDict {["error" :=
                        VStr ("Invalid " +:+ param_name +:+ ": " +:+ exn_str e)]})
              else
                Some (VDict {["error" :=
                        VStr ("Validation error for " +:+ param_name +:+ ": "
                                +:+ exn_str e)]})
          end
      | None => run_validators rest arguments
      end
  end.

Definition validate_params (validators : list (string * (A → outcome B)))
    (bound : outcome (gmap string A)) (call : M St pyval) : M St pyval :=
  match bound with
  | Raise e => raise e
  | Return arguments =>
      match run_validators validators arguments with
      | Some early => ret early
      | None => call
      end
  end.

End decorator.

End validation.

(* ===================================================================== *)
(** ** error_handler.py *)
(* ===================================================================== *)

Module error_handler.
Import response_formatter.

Definition ResolveError : pyclass :=
  Subclass "src.utils.error_handler.ResolveError" Exception_.
Definition ConnectionError : pyclass :=
  Subclass "src.utils.error_handler.ConnectionError" ResolveError.
Definition ValidationError : pyclass :=
  Subclass "src.utils.error_handler.ValidationError" ResolveError.
Definition OperationError : pyclass :=
  Subclass "src.utils.error_handler.OperationError" ResolveError.

Definition handle_resolve_errors {St} (func : pyfunc St) : pyfunc St :=
  λ args kwargs,
    try_except (func args kwargs)
      (λ e,
         if isinstance e ConnectionError then
           ret (VDict (error (exn_str e) (VStr "CONNECTION_ERROR") VNone ∅))
         else if isinstance e ValidationError then
           ret (VDict (error (exn_str e) (VStr "VALIDATION_ERROR") VNone ∅))
         else if isinstance e OperationError then
           ret (VDict (error (exn_str e) (VStr "OPERATION_ERROR") VNone ∅))
         else
           ret (VDict (error ("Unexpected error: " +:+ exn_str e)
                         (VStr "INTERNAL_ERROR") VNone ∅))).

Definition validate_resolve_state {S} (h : HostAPI S) (resolve : pyobj)
    : M (world S) unit :=
  match resolve with
  | Val VNone =>
      raise (mk_exn ConnectionError "Not connected to DaVinci Resolve")
  | _ =>
      try_except
        (let* _ := call_GetCurrentPage h resolve in ret tt)
        (λ e, raise (mk_exn ConnectionError
                       ("DaVinci Resolve connection error: " +:+ exn_str e)))
  end.

(** [create_context_error(base_message, context)]; [context] lists
    [context.items()] in insertion order and [py_repr] renders a value inside
    an f-string. *)
Definition create_context_error (py_repr : pyval → string) (base_message : string)
    (context : list (string * pyval)) : string :=
  let context_str :=
    join ", " ((λ kv, kv.1 +:+ "=" +:+ validation.fmt py_repr kv.2)
                 <$> List.filter (λ kv, negb (is_None kv.2)) context) in
  if truthy (VStr context_str) then
    base_message +:+ " (Context: " +:+ context_str +:+ ")"
  else base_message.

End error_handler.

(* ===================================================================== *)
(** ** page_manager.py *)
(* ===================================================================== *)

Module page_manager.

(** [hasattr(o, 'GetCurrentPage')] *)
Definition has_GetCurrentPage (o : pyobj) : bool :=
  match o with Resolve => true | Val _ => false end.

Definition _extract_resolve_object (args : list pyobj)
    (kwargs : gmap string pyobj) : pyobj :=
  let resolve := default (Val VNone) (kwargs !! "resolve") in
  if obj_truthy resolve then resolve
  else
    match args !! 0%nat with
    | Some a0 =>
        if has_GetCurrentPage a0 then a0
        else
          match args !! 1%nat with
          | Some a1 => if has_GetCurrentPage a1 then a1 else Val VNone
          | None => Val VNone
          end
    | None => Val VNone
    end.

(** The mapping [{"error": msg}] returned on the guard's own failures. *)
Definition error_dict (msg : string) : pyval := VDict {["error" := VStr msg]}.

Section with_host.
Context {S : Type} (h : HostAPI S).

(** [ensure_page(page_name)(func)]; [func_name] is [func.__name__]. *)
Definition ensure_page (page_name : string) (func_name : string)
    (func : pyfunc (world S)) : pyfunc (world S) :=
  λ args kwargs,
    let resolve := _extract_resolve_object args kwargs in
    if negb (obj_truthy resolve) then
      ret (error_dict ("Could not find 'resolve' object for function " +:+ func_name))
    else
      try_except
        (let* current_page := call_GetCurrentPage h resolve in
         match current_page with
         | VStr current_page =>
             let execute (page_switched : bool) : M (world S) pyval :=
               try_finally
                 (invoke func_name func args kwargs)
                 (if page_switched then
                    try_except
                      (let* _ := call_OpenPage h resolve current_page in ret tt)
                      (λ _, ret tt)
                  else ret tt) in
             if negb (String.eqb (lower current_page) (lower page_name)) then
               let* result := call_OpenPage h resolve page_name in
               if negb (truthy result) then
                 ret (error_dict ("Failed to switch to " +:+ page_name +:+ " page"))
               else execute true
             else execute false
         | other => no_attribute other "lower"
         end)
        (λ e, ret (error_dict ("Error in page management for " +:+ func_name
                                 +:+ ": " +:+ exn_str e))).

End with_host.

Definition get_valid_pages : list string :=
  ["media"; "cut"; "edit"; "fusion"; "color"; "fairlight"; "deliver"].

Definition validate_page_name (page_name : string) : bool :=
  str_in (lower page_name) get_valid_pages.

End page_manager.

(* ===================================================================== *)
(** ** api/core_operations.py *)
(* ===================================================================== *)

Module core_operations.
Section with_host.
Context {S : Type} (h : HostAPI S).
(** The handle captured by [register_core_operations]. *)
Variable resolve : pyobj.

Definition switch_page (page : string) : M (world S) pyval :=
  match resolve with
  | Val VNone => ret (VStr "Error: Not connected to DaVinci Resolve")
  | _ =>
      let valid_pages :=
        ["media"; "cut"; "edit"; "fusion"; "color"; "fairlight"; "deliver"] in
      if negb (str_in (lower page) valid_pages) then
        ret (VStr ("Error: Invalid page '" +:+ page +:+ "'. Valid pages are: "
                     +:+ join ", " valid_pages))
      else
        try_except
          (let* result := call_OpenPage h resolve (lower page) in
           if truthy result then
             ret (VStr ("Successfully switched to " +:+ page +:+ " page"))
           else
             ret (VStr ("Failed to switch to " +:+ page +:+ " page")))
          (λ e, ret (VStr ("Error switching to " +:+ page +:+ " page: "
                             +:+ exn_str e)))
  end.

End with_host.
End core_operations.

(* ===================================================================== *)
(** ** api/cache_management.py *)
(* ===================================================================== *)

Module cache_management.
Section with_host.
Context {S : Type} (h : HostAPI S).
(** The handle captured by [register_cache_operations]. *)
Variable resolve : pyobj.

Definition set_cache_mode (mode : string) : M (world S) pyval :=
  match resolve with
  | Val VNone => ret (VStr "Error: Not connected to DaVinci Resolve")
  | _ =>
      try_except
        (let* project_manager := call_GetProjectManager h resolve in
         if negb project_manager then
           ret (VStr "Error: Failed to get Project Manager")
         else
           let* current_project := call_GetCurrentProject h in
           if negb current_project then
             ret (VStr "Error: No project currently open")
           else
             let valid_modes := ["Auto"; "On"; "Off"] in
             if negb (str_in mode valid_modes) then
               ret (VStr ("Error: Invalid cache mode. Must be one of: "
                            +:+ join ", " valid_modes))
             else
               let* result := call_SetSetting h "cacheModeClipColor" mode in
               if truthy result then
                 ret (VStr ("Successfully set cache mode to '" +:+ mode +:+ "'"))
               else
                 ret (VStr ("Failed to set cache mode to '" +:+ mode +:+ "'")))
        (λ e, ret (VStr ("Error setting cache mode: " +:+ exn_str e)))
  end.

End with_host.
End cache_management.

(* ===================================================================== *)
(** ** utils/fusion_utils.py and api/fusion_operations_clean.py *)
(* ===================================================================== *)

Module fusion_utils.

Fixpoint contains_char (c : ascii) (s : string) : bool :=
  match s with
  | EmptyString => false
  | String d s' => if Ascii.eqb c d then true else contains_char c s'
  end.

Definition validate_node_type (node_type : pyval) : bool :=
  match node_type with
  | VStr s =>
      if negb (truthy (VStr (strip s))) then false
      else
        let invalid_chars :=
          [" "; "009"; "010"; "/"; "\"; ":"; ";"; ","]%char in
        if existsb (λ char, contains_char char s) invalid_chars then false
        else true
  | _ => false
  end.

Definition get_available_blend_modes : list (string * Z) :=
  [("Normal", 0); ("Add", 1); ("Multiply", 2); ("Screen", 3); ("Overlay", 4);
   ("SoftLight", 5); ("HardLight", 6); ("Darken", 7); ("Lighten", 8);
   ("Difference", 9); ("Exclusion", 10); ("ColorDodge", 11); ("ColorBurn", 12)].

(** [validate_blend_mode(blend_mode)] for a string argument. *)
Definition validate_blend_mode (py_repr : pyval → string) (blend_mode : string)
    : outcome string :=
  let available_modes := get_available_blend_modes in
  match List.find (λ mode_name, String.eqb (lower blend_mode) (lower mode_name))
          (available_modes.*1) with
  | Some mode_name => Return mode_name
  | None =>
      Raise (mk_exn validation.ValidationError
               ("Invalid blend mode '" +:+ blend_mode +:+ "'. Available modes: "
                  +:+ py_repr (VList (VStr <$> available_modes.*1))))
  end.

Definition get_node_categories : list (string * list string) :=
  [("generators",
    ["Background"; "Checkerboard"; "Ellipse"; "Noise"; "Plasma";
     "Rectangle"; "Text+"; "TextPlus"; "WaveForm"]);
   ("color_correction",
    ["BrightnessContrast"; "ChannelBooleans"; "ColorCorrector";
     "ColorCurves"; "Gamma"; "Hue"; "Saturation"]);
   ("composite",
    ["AlphaMultiply"; "AlphaDivide"; "Merge"; "Over"; "Under";
     "Add"; "Multiply"; "Screen"; "Overlay"]);
   ("transform",
    ["Transform"; "DVE"; "CornerPin"; "GridWarp"; "LensDistortion";
     "Perspective"; "Resize"; "Crop"]);
   ("filters",
    ["Blur"; "Sharpen"; "Glow"; "SoftGlow"; "UnsharpMask";
     "Despill"; "Emboss"; "Sobel"; "Erode"; "Dilate"]);
   ("keying",
    ["ChromaKeyer"; "LumaKeyer"; "ColorKeyer"; "DeltaKeyer";
     "Primatte"; "UltraKeyer"]);
   ("3d",
    ["Renderer3D"; "Camera3D"; "ImagePlane3D"; "Merge3D";
     "Shape3D"; "Spotlight3D"; "Transform3D"]);
   ("particles",
    ["pEmitter"; "pRender"; "pBounce"; "pDirectionalForce";
     "pGravity"; "pKill"; "pSpawn"; "pTurbulence"])].

End fusion_utils.

Module fusion_operations_clean.
Import response_formatter.

Section with_host.
Context {S : Type} (h : HostAPI S).
(** The handle captured by [register_fusion_operations]. *)
Variable resolve : pyobj.

(** The function [add_fusion_node] before decoration, on the parameters
    bound from the request. *)
Definition add_fusion_node (node_type name pos_x pos_y : pyval)
    : M (world S) pyval :=
  try_except
    (let* _ := validation.validate_resolve_connection h resolve in
     let* _ := lift (validation.validate_non_empty_string node_type "node_type") in
     if negb (fusion_utils.validate_node_type node_type) then
       ret (VDict (error ("Invalid node type: "
                            +:+ match node_type with VStr s => s | _ => "" end)
                     VNone VNone ∅))
     else
       host_step (AddToolAndConfigure h
                    match node_type with VStr s => s | _ => "" end
                    name pos_x pos_y))
    (λ e,
       if isinstance e validation.ValidationError then
         ret (VDict (error (exn_str e) (VStr "VALIDATION_ERROR") VNone ∅))
       else
         ret (VDict (error ("Error adding Fusion node: " +:+ exn_str e)
                       VNone VNone ∅))).

(** The registered tool: [mcp.tool()(ensure_page("fusion")(add_fusion_node))].
    [func] is the Python function object of [add_fusion_node]. *)
Definition add_fusion_node_tool (func : pyfunc (world S)) : pyfunc (world S) :=
  page_manager.ensure_page h "fusion" "add_fusion_node" func.

End with_host.
End fusion_operations_clean.

(* ===================================================================== *)
(** ** The validators on arbitrary text *)
(* ===================================================================== *)

(** A Python [str] holds Unicode text, and [str.lower()] and [str.strip()]
    follow the interpreter's Unicode tables.  In this module a [str] is
    given by its UTF-8 bytes (equality, concatenation and the search for an
    ASCII character are the same on the bytes as on the text) and the two
    methods are parameters [str_lower] and [str_strip].  The definitions
    follow the same source lines as their namesakes above. *)
Module text.
Section str_methods.
Variable str_lower : string → string.
Variable str_strip : string → string.
Variable py_repr : pyval → string.

(** [validate_choice(value, choices, name, case_sensitive)] *)
Definition validate_choice (value : pyval) (choices : list string)
    (name : string) (case_sensitive : bool) : outcome string :=
  match value with
  | VStr value =>
      let not_a_choice :=
        mk_exn validation.ValidationError
          (name +:+ " must be one of " +:+ validation.fmt py_repr (VList (VStr <$> choices))
             +:+ ", got '" +:+ value +:+ "'") in
      if case_sensitive then
        if negb (str_in value choices) then Raise not_a_choice
        else Return value
      else
        let value_lower := str_lower value in
        let choices_lower := str_lower <$> choices in
        if negb (str_in value_lower choices_lower) then Raise not_a_choice
        else
          match index value_lower choices_lower with
          | None =>
              Raise (mk_exn (Subclass "builtins.ValueError" Exception_)
                       (py_repr (VStr value_lower) +:+ " is not in list"))
          | Some index =>
              match choices !! index with
              | Some choice => Return choice
              | None =>
                  Raise (mk_exn (Subclass "builtins.IndexError"
                                   (Subclass "builtins.LookupError" Exception_))
                           "list index out of range")
              end
          end
  | _ =>
      Raise (mk_exn validation.ValidationError
               (name +:+ " must be a string, got " +:+ type_name value))
  end.

(** [validate_non_empty_string(value, name)] *)
Definition validate_non_empty_string (value : pyval) (name : string)
    : outcome unit :=
  match value with
  | VStr s =>
      if negb (truthy (VStr (str_strip s))) then
        Raise (mk_exn validation.ValidationError (name +:+ " cannot be empty"))
      else Return tt
  | _ =>
      Raise (mk_exn validation.ValidationError
               (name +:+ " must be a string, got " +:+ type_name value))
  end.

(** [validate_file_extension(path, allowed_extensions, name)];
    [splitext_ext path] is [os.path.splitext(path)[1]]. *)
Definition normalize_extension (ext : string) : string :=
  str_lower (if negb (String.prefix "." ext) then "." +:+ ext else ext).

Definition validate_file_extension (splitext_ext : string → string)
    (path : pyval) (allowed_extensions : list string) (name : string)
    : outcome unit :=
  match path with
  | VStr path =>
      let normalized_extensions := normalize_extension <$> allowed_extensions in
      let file_extension := str_lower (splitext_ext path) in
      if negb (str_in file_extension normalized_extensions) then
        Raise (mk_exn validation.ValidationError
                 (name +:+ " must have one of these extensions: "
                    +:+ py_repr (VList (VStr <$> allowed_extensions))
                    +:+ ", got '" +:+ file_extension +:+ "'"))
      else Return tt
  | _ =>
      Raise (mk_exn validation.ValidationError
               (name +:+ " must be a string, got " +:+ type_name path))
  end.

(** [fusion_utils.validate_node_type(node_type)] *)
Definition validate_node_type (node_type : pyval) : bool :=
  match node_type with
  | VStr s =>
      if negb (truthy (VStr (str_strip s))) then false
      else
        let invalid_chars :=
          [" "; "009"; "010"; "/"; "\"; ":"; ";"; ","]%char in
        if existsb (λ char, fusion_utils.contains_char char s) invalid_chars then false
        else true
  | _ => false
  end.

(** The function [add_fusion_node] of [fusion_operations_clean.py] before
    decoration, on the parameters bound from the request. *)
Definition add_fusion_node {S} (h : HostAPI S) (resolve : pyobj)
    (node_type name pos_x pos_y : pyval) : M (world S) pyval :=
  try_except
    (let* _ := validation.validate_resolve_connection h resolve in
     let* _ := lift (validate_non_empty_string node_type "node_type") in
     if negb (validate_node_type node_type) then
       ret (VDict (response_formatter.error
                     ("Invalid node type: "
                        +:+ match node_type with VStr s => s | _ => "" end)
                     VNone VNone ∅))
     else
       host_step (AddToolAndConfigure h
                    match node_type with VStr s => s | _ => "" end
                    name pos_x pos_y))
    (λ e,
       if isinstance e validation.ValidationError then
         ret (VDict (response_formatter.error (exn_str e)
                       (VStr "VALIDATION_ERROR") VNone ∅))
       else
         ret (VDict (response_formatter.error
                       ("Error adding Fusion node: " +:+ exn_str e) VNone VNone ∅))).

End str_methods.
End text.

(* ===================================================================== *)
(** ** The operations that test the handle themselves *)
(* ===================================================================== *)

(** The operations registered by [core_operations.py],
    [project_operations.py], [cache_management.py], [fairlight_operations.py],
    [keyframe_control.py] and [object_inspection.py] that use the host handle
    all begin with the same test, [if resolve is None: return ...].  They are
    listed here with the value each returns there; what follows the test is
    a parameter. *)
Module registry.

Inductive operation : Type :=
(* core_operations.py *)
| get_resolve_version | get_current_page | switch_page | get_product_info
| get_connection_status
(* project_operations.py *)
| list_projects_resource | get_current_project_resource | open_project_tool
| create_project_tool | save_project_tool
(* cache_management.py *)
| get_cache_settings | set_cache_mode | set_optimized_media_mode | set_proxy_mode
| set_proxy_quality | generate_optimized_media | delete_optimized_media
| clear_render_cache | get_cache_disk_usage
(* fairlight_operations.py *)
| get_fairlight_status | add_audio_track | set_audio_levels | apply_audio_effect
| auto_sync_audio | get_audio_meters | export_audio_mixdown
(* keyframe_control.py *)
| get_timeline_item_keyframes | add_keyframe | modify_keyframe | delete_keyframe
| set_keyframe_interpolation | enable_keyframes
(* object_inspection.py *)
| inspect_resolve_object | inspect_project_manager | inspect_current_project
| inspect_media_pool | inspect_current_timeline | inspect_custom_object
| get_object_methods | get_object_properties | test_object_method.

Definition not_connected_string : pyval :=
  VStr "Error: Not connected to DaVinci Resolve".

Definition not_connected_dict : pyval :=
  VDict {["error" := VStr "Not connected to DaVinci Resolve"]}.

(** The value returned when [resolve is None]. *)
Definition not_connected (op : operation) : pyval :=
  match op with
  | get_connection_status =>
      VDict (<["error" := VStr "Not connected to DaVinci Resolve"]>
               {["connected" := VBool false]})
  | list_projects_resource => VList [not_connected_string]
  | get_cache_settings | get_cache_disk_usage
  | get_fairlight_status | get_audio_meters
  | get_timeline_item_keyframes
  | inspect_resolve_object | inspect_project_manager | inspect_current_project
  | inspect_media_pool | inspect_current_timeline => not_connected_dict
  | _ => not_connected_string
  end.

(** The call of a registered operation: the test of the handle, then the
    rest of the function. *)
Definition invoke {S} (rest : operation → gmap string pyval → M (world S) pyval)
    (resolve : pyobj) (op : operation) (arguments : gmap string pyval)
    : M (world S) pyval :=
  match resolve with
  | Val VNone => ret (not_connected op)
  | _ => rest op arguments
  end.

End registry.

(* ===================================================================== *)
(** ** A concrete host used to exhibit behaviours *)
(* ===================================================================== *)

(** A small host: it remembers the active page and whether it is busy (a
    render in progress); while busy it refuses to change page.  [OpenPage]
    accepts exactly the seven page names. *)
Module studio.

Record state : Type := mk { page : string; busy : bool }.

Definition open_page (p : string) (s : state) : outcome pyval * state :=
  if busy s then (Return (VBool false), s)
  else if str_in p page_manager.get_valid_pages
       then (Return (VBool true), mk p (busy s))
       else (Return (VBool false), s).

Definition api : HostAPI state :=
  {| GetCurrentPage := λ s, Return (VStr (page s));
     OpenPage := open_page;
     GetProjectManager := λ s, (Return true, s);
     GetCurrentProject := λ s, (Return true, s);
     SetSetting := λ _ _ s, (Return (VBool true), s);
     AddToolAndConfigure := λ node_type _ _ _ s,
       (Return (VDict (response_formatter.success
                         ("Added " +:+ node_type +:+ " node: " +:+ node_type)
                         VNone ∅)), s) |}.

(** An operation that starts a render and reports success. *)
Definition start_render : pyfunc (world state) :=
  λ _ _ w,
    (Return (VDict (response_formatter.success "Render started" VNone ∅)),
     mkWorld (mk (page (host w)) true) (calls w)).

(** An operation that only reports success. *)
Definition noop : pyfunc (world state) :=
  λ _ _ w, (Return (VDict (response_formatter.success "done" VNone ∅)), w).

Definition on_page (p : string) : world state := mkWorld (mk p false) [].

End studio.

(** A host without state whose replies are fixed in advance. *)
Module scripted.

Definition api (page_reply open_reply : outcome pyval) : HostAPI unit :=
  {| GetCurrentPage := λ _, page_reply;
     OpenPage := λ _ s, (open_reply, s);
     GetProjectManager := λ s, (Return false, s);
     GetCurrentProject := λ s, (Return false, s);
     SetSetting := λ _ _ s, (Return (VBool false), s);
     AddToolAndConfigure := λ _ _ _ _ s, (Return VNone, s) |}.

Definition start : world unit := mkWorld tt [].

Definition lost : exn := mk_exn (Subclass "builtins.RuntimeError" Exception_) "connection lost".

(** An operation that fails with an exception the error handler does not
    classify. *)
Definition failing : pyfunc (world unit) := λ _ _, raise lost.

End scripted.

(** An error envelope in the sense of [response_formatter.error]: a mapping
    with [success] false and a [message]. *)
Definition is_error_envelope (v : pyval) : Prop :=
  ∃ d, v = VDict d ∧ d !! "success" = Some (VBool false) ∧ is_Some (d !! "message").

(** An exception that [handle_resolve_errors] does not classify. *)
Definition unclassified (e : exn) : Prop :=
  isinstance e error_handler.ConnectionError = false ∧
  isinstance e error_handler.ValidationError = false ∧
  isinstance e error_handler.OperationError = false.

(** How the guard reports the outcome of the wrapped function [func_name]:
    a returned value is passed on, an exception becomes an error mapping. *)
Definition guard_result (func_name : string) (out : outcome pyval) : outcome pyval :=
  match out with
  | Return v => Return v
  | Raise e =>
      Return (page_manager.error_dict
                ("Error in page management for " +:+ func_name +:+ ": " +:+ exn_str e))
  end.

(** Every character of the string is white space. *)
Fixpoint all_space (s : string) : bool :=
  match s with
  | EmptyString => true
  | String c s' => is_space c && all_space s'
  end.

(** The computation returned a value. *)
Definition returns {A} (r : outcome A) : Prop := ∃ a, r = Return a.

(** The extension with its leading dot, as [validate_file_extension] reads it. *)
Definition dotted (ext : string) : string :=
  if String.prefix "." ext then ext else "." +:+ ext.


(** The string holds ASCII characters only. *)
Fixpoint ascii_only (s : string) : bool :=
  match s with
  | EmptyString => true
  | String c s' => (nat_of_ascii c <? 128)%nat && ascii_only s'
  end.

(** What is assumed of the interpreter's [str.lower()]: on ASCII text it
    folds the letters A-Z and nothing else, and it maps no text but the empty
    one to the empty text. *)
Definition extends_ascii_lower (str_lower : string → string) : Prop :=
  ∀ s, ascii_only s = true → str_lower s = lower s.

Definition keeps_emptiness (str_lower : string → string) : Prop :=
  ∀ s, str_lower s = "" ↔ s = "".

(** What is assumed of the interpreter's [str.strip()]: on ASCII text it
    removes the ASCII white space at both ends. *)
Definition extends_ascii_strip (str_strip : string → string) : Prop :=
  ∀ s, ascii_only s = true → str_strip s = strip s.

(** A host on which a successful [OpenPage] makes the page current. *)
Definition switch_takes_effect {S} (h : HostAPI S) : Prop :=
  ∀ p s r s', OpenPage h p s = (Return r, s') → truthy r = true →
              GetCurrentPage h s' = Return (VStr p).

(* ===================================================================== *)
(** ** Properties of the envelope builders *)
(* ===================================================================== *)

Section envelope_facts.
Import response_formatter.

Lemma lookup_update_extra (d e : gmap string pyval) k v :
  e !! k = Some v → update d e !! k = Some v.
Proof. intros He. unfold update. by apply lookup_union_Some_l. Qed.

Lemma lookup_update_base (d e : gmap string pyval) k :
  e !! k = None → update d e !! k = d !! k.
Proof. intros He. unfold update. by apply lookup_union_r. Qed.

Lemma success_lookup_base message data extra k :
  extra !! k = None → k ≠ "data" →
  success message data extra !! k
  = (<["message" := VStr message]> (<["success" := VBool true]> ∅) : gmap string pyval) !! k.
Proof.
  intros He Hk. unfold success. rewrite lookup_update_base by done.
  destruct (negb (is_None data)); [by rewrite lookup_insert_ne|done].
Qed.

Lemma error_lookup_base message error_code details extra k :
  extra !! k = None → k ≠ "error_code" → k ≠ "details" →
  error message error_code details extra !! k
  = (<["message" := VStr message]> (<["success" := VBool false]> ∅) : gmap string pyval) !! k.
Proof.
  intros He Hk1 Hk2. unfold error. rewrite lookup_update_base by done.
  destruct (negb (is_None details)), (truthy error_code);
    repeat (rewrite lookup_insert_ne by done); done.
Qed.

Lemma info_lookup_base message data extra k :
  extra !! k = None → k ≠ "data" →
  info message data extra !! k
  = (<["type" := VStr "info"]>
       (<["message" := VStr message]> (<["success" := VBool true]> ∅)) : gmap string pyval) !! k.
Proof.
  intros He Hk. unfold info. rewrite lookup_update_base by done.
  destruct (negb (is_None data)); [by rewrite lookup_insert_ne|done].
Qed.

Lemma error_code_lookup message code extra :
  extra !! "error_code" = None → code ≠ "" →
  error message (VStr code) VNone extra !! "error_code" = Some (VStr code).
Proof.
  intros He Hc. unfold error. rewrite lookup_update_base by done.
  simpl. destruct (String.eqb_spec code ""); [done|]. simpl.
  by rewrite lookup_insert_eq.
Qed.

End envelope_facts.

(** C6 (as stated fails): an extra field named [success] replaces the core
    value, so [info] can return a mapping whose [success] is not true. *)
Lemma info_extra_overwrites_success :
  response_formatter.info "ok" VNone {["success" := VBool false]} !! "success"
  ≠ Some (VBool true).
Proof. vm_compute. discriminate. Qed.

(** C6 (amended): the builders always return a mapping holding the keys
    [success] and [message]; extra fields are merged in last and win; a core
    key keeps its value exactly when no extra field carries its name. *)
Theorem envelope_builders_core_keys
    (message : string) (data error_code details : pyval)
    (extra : gmap string pyval) :
  let s := response_formatter.success message data extra in
  let e := response_formatter.error message error_code details extra in
  let i := response_formatter.info message data extra in
  (is_Some (s !! "success") ∧ is_Some (s !! "message")) ∧
  (is_Some (e !! "success") ∧ is_Some (e !! "message")) ∧
  (is_Some (i !! "success") ∧ is_Some (i !! "message")) ∧
  (∀ k v, extra !! k = Some v →
          s !! k = Some v ∧ e !! k = Some v ∧ i !! k = Some v) ∧
  (extra !! "success" = None →
     s !! "success" = Some (VBool true) ∧ e !! "success" = Some (VBool false) ∧
     i !! "success" = Some (VBool true)) ∧
  (extra !! "message" = None →
     s !! "message" = Some (VStr message) ∧ e !! "message" = Some (VStr message) ∧
     i !! "message" = Some (VStr message)) ∧
  (extra !! "type" = None → i !! "type" = Some (VStr "info")).
Proof.
  intros s e i.
  assert (Hext : ∀ k v, extra !! k = Some v →
                        s !! k = Some v ∧ e !! k = Some v ∧ i !! k = Some v).
  { intros k v Hk. repeat split; by apply lookup_update_extra. }
  assert (Hs : extra !! "success" = None →
     s !! "success" = Some (VBool true) ∧ e !! "success" = Some (VBool false) ∧
     i !! "success" = Some (VBool true)).
  { intros Hn. subst s e i.
    rewrite success_lookup_base, error_lookup_base, info_lookup_base by done.
    done. }
  assert (Hm : extra !! "message" = None →
     s !! "message" = Some (VStr message) ∧ e !! "message" = Some (VStr message) ∧
     i !! "message" = Some (VStr message)).
  { intros Hn. subst s e i.
    rewrite success_lookup_base, error_lookup_base, info_lookup_base by done.
    done. }
  assert (Hpresent : ∀ k, (extra !! k = None → is_Some (s !! k) ∧ is_Some (e !! k) ∧ is_Some (i !! k)) →
                          is_Some (s !! k) ∧ is_Some (e !! k) ∧ is_Some (i !! k)).
  { intros k Hnone. destruct (extra !! k) as [v|] eqn:Hk; [|by apply Hnone].
    destruct (Hext k v Hk) as (-> & -> & ->). by repeat split. }
  destruct (Hpresent "success") as (? & ? & ?).
  { intros Hn. destruct (Hs Hn) as (-> & -> & ->). by repeat split. }
  destruct (Hpresent "message") as (? & ? & ?).
  { intros Hn. destruct (Hm Hn) as (-> & -> & ->). by repeat split. }
  repeat split; try done.
  - by apply Hext.
  - by apply Hext.
  - by apply Hext.
  - by apply Hs.
  - by apply Hs.
  - by apply Hs.
  - by apply Hm.
  - by apply Hm.
  - by apply Hm.
  - intros Hn. subst i. by rewrite info_lookup_base.
Qed.

Lemma envelope_builders_core_keys_witness :
  let e := response_formatter.error "X not found" (VStr "NODE_NOT_FOUND") VNone ∅ in
  e !! "success" = Some (VBool false) ∧ e !! "message" = Some (VStr "X not found").
Proof.
  destruct (envelope_builders_core_keys "X not found" VNone
              (VStr "NODE_NOT_FOUND") VNone ∅)
    as (_ & _ & _ & _ & Hsuccess & Hmessage & _).
  split.
  - apply Hsuccess. reflexivity.
  - apply Hmessage. reflexivity.
Defined.

(* ===================================================================== *)
(** ** Properties of the validators *)
(* ===================================================================== *)

Lemma str_in_spec (x : string) (l : list string) : str_in x l = true ↔ x ∈ l.
Proof.
  unfold str_in. rewrite existsb_exists. split.
  - intros (y & Hy & Heq). apply String.eqb_eq in Heq as ->.
    by apply list_elem_of_In.
  - intros Hx. exists x. split; [by apply list_elem_of_In|apply String.eqb_refl].
Qed.

(** [index] finds the first occurrence. *)
Lemma index_Some (x : string) (l : list string) (i : nat) :
  index x l = Some i →
  l !! i = Some x ∧ ∀ j y, (j < i)%nat → l !! j = Some y → y ≠ x.
Proof.
  revert i. induction l as [|y l IH]; intros i; simpl; [done|].
  destruct (String.eqb_spec y x) as [->|Hne].
  - intros [= <-]. split; [done|]. intros j z Hj. lia.
  - destruct (index x l) as [i'|]; [|done]. simpl. intros [= <-].
    destruct (IH i' eq_refl) as [Hi Hfirst]. split; [done|].
    intros [|j] z Hj; simpl; [by intros [= <-]|].
    apply Hfirst. lia.
Qed.

Lemma index_is_Some (x : string) (l : list string) :
  x ∈ l → is_Some (index x l).
Proof.
  induction l as [|y l IH]; simpl; [by intros ?%elem_of_nil|].
  intros Hx. destruct (String.eqb_spec y x); [by eexists|].
  apply elem_of_cons in Hx as [->|Hx]; [done|].
  destruct (IH Hx) as [i ->]. by eexists.
Qed.

Lemma lower_member (value : string) (choices : list string) :
  lower value ∈ lower <$> choices ↔ ∃ c, c ∈ choices ∧ lower c = lower value.
Proof.
  rewrite list_elem_of_fmap. split.
  - intros (c & Heq & Hc). by exists c.
  - intros (c & Hc & Heq). by exists c.
Qed.

(** What [validate_choice] does in case-insensitive mode: it returns the
    first member of [choices] whose lower-case form is that of [value]. *)
Lemma validate_choice_first_match py_repr value choices name c :
  validation.validate_choice py_repr (VStr value) choices name false = Return c →
  ∃ i, choices !! i = Some c ∧ lower c = lower value ∧
       ∀ j c', (j < i)%nat → choices !! j = Some c' → lower c' ≠ lower value.
Proof.
  unfold validation.validate_choice.
  destruct (str_in _ _); simpl; [|done].
  destruct (index _ _) as [i|] eqn:Hi; [|done].
  destruct (choices !! i) as [c'|] eqn:Hc; [|done].
  intros [= <-]. apply index_Some in Hi as [Hi Hfirst].
  rewrite list_lookup_fmap, Hc in Hi. injection Hi as Hi.
  exists i. repeat split; [done..|].
  intros j d Hj Hd. apply (Hfirst j (lower d) Hj).
  by rewrite list_lookup_fmap, Hd.
Qed.

Lemma validate_choice_accepts py_repr value choices name :
  (∃ c, c ∈ choices ∧ lower c = lower value) →
  ∃ c, validation.validate_choice py_repr (VStr value) choices name false = Return c.
Proof.
  intros Hex. apply lower_member in Hex.
  unfold validation.validate_choice.
  destruct (str_in _ _) eqn:Hin; simpl.
  - destruct (index_is_Some _ _ Hex) as [i Hi]. rewrite Hi.
    apply index_Some in Hi as [Hi _].
    rewrite list_lookup_fmap in Hi.
    destruct (choices !! i) as [c|]; [by exists c|done].
  - apply str_in_spec in Hex. congruence.
Qed.

Lemma validate_choice_rejects py_repr value choices name :
  ¬ (∃ c, c ∈ choices ∧ lower c = lower value) →
  ∃ msg, validation.validate_choice py_repr (VStr value) choices name false
         = Raise (mk_exn validation.ValidationError msg).
Proof.
  intros Hno. unfold validation.validate_choice.
  destruct (str_in _ _) eqn:Hin; simpl; [|by eexists].
  apply str_in_spec, lower_member in Hin. done.
Qed.

(* --------------------------------------------------------------------- *)
(** *** [validate_choice] on arbitrary text *)

(** The ASCII functions satisfy what is assumed of the interpreter's. *)
Lemma lower_extends_ascii_lower : extends_ascii_lower lower.
Proof. by intros s _. Qed.

Lemma strip_extends_ascii_strip : extends_ascii_strip strip.
Proof. by intros s _. Qed.

Lemma lower_keeps_emptiness : keeps_emptiness lower.
Proof. intros s. by destruct s. Qed.

(** With the ASCII [lower] the validator of [text] is the one of
    [validation]. *)
Lemma text_validate_choice_ascii py_repr value choices name case_sensitive :
  text.validate_choice lower py_repr value choices name case_sensitive
  = validation.validate_choice py_repr value choices name case_sensitive.
Proof. reflexivity. Qed.

Section text_validate_choice_facts.
Variable str_lower : string → string.
Variable py_repr : pyval → string.

Lemma str_lower_member (value : string) (choices : list string) :
  str_lower value ∈ str_lower <$> choices
  ↔ ∃ c, c ∈ choices ∧ str_lower c = str_lower value.
Proof.
  rewrite list_elem_of_fmap. split.
  - intros (c & Heq & Hc). by exists c.
  - intros (c & Hc & Heq). by exists c.
Qed.

(** In case-insensitive mode the validator returns the first member of
    [choices] whose lower-case form is that of [value]. *)
Lemma text_validate_choice_first_match value choices name c :
  text.validate_choice str_lower py_repr (VStr value) choices name false = Return c →
  ∃ i, choices !! i = Some c ∧ str_lower c = str_lower value ∧
       ∀ j c', (j < i)%nat → choices !! j = Some c' →
               str_lower c' ≠ str_lower value.
Proof.
  unfold text.validate_choice.
  destruct (str_in _ _); simpl; [|done].
  destruct (index _ _) as [i|] eqn:Hi; [|done].
  destruct (choices !! i) as [c'|] eqn:Hc; [|done].
  intros [= <-]. apply index_Some in Hi as [Hi Hfirst].
  rewrite list_lookup_fmap, Hc in Hi. injection Hi as Hi.
  exists i. repeat split; [done..|].
  intros j d Hj Hd. apply (Hfirst j (str_lower d) Hj).
  by rewrite list_lookup_fmap, Hd.
Qed.

Lemma text_validate_choice_accepts value choices name :
  (∃ c, c ∈ choices ∧ str_lower c = str_lower value) →
  ∃ c, text.validate_choice str_lower py_repr (VStr value) choices name false
       = Return c.
Proof.
  intros Hex. apply str_lower_member in Hex.
  unfold text.validate_choice.
  destruct (str_in _ _) eqn:Hin; simpl.
  - destruct (index_is_Some _ _ Hex) as [i Hi]. rewrite Hi.
    apply index_Some in Hi as [Hi _].
    rewrite list_lookup_fmap in Hi.
    destruct (choices !! i) as [c|]; [by exists c|done].
  - apply str_in_spec in Hex. congruence.
Qed.

Lemma text_validate_choice_rejects value choices name :
  ¬ (∃ c, c ∈ choices ∧ str_lower c = str_lower value) →
  ∃ msg, text.validate_choice str_lower py_repr (VStr value) choices name false
         = Raise (mk_exn validation.ValidationError msg).
Proof.
  intros Hno. unfold text.validate_choice.
  destruct (str_in _ _) eqn:Hin; simpl; [|by eexists].
  apply str_in_spec, str_lower_member in Hin. done.
Qed.

End text_validate_choice_facts.

(** C8: whatever the interpreter's [str.lower()] does to text, in its
    default case-insensitive mode [validate_choice] succeeds exactly when the
    lower-case form of the value is the lower-case form of some member of the
    choice list; it then returns a member of the list, in the list's own
    casing, with that lower-case form; otherwise it raises the validation
    failure.  As [str.lower()] folds the ASCII letters,
    [validate_choice("auto", ["Auto","On","Off"])] returns ["Auto"]. *)
Theorem validate_choice_case_insensitive
    (str_lower : string → string) (py_repr : pyval → string)
    (value : string) (choices : list string) (name : string) :
  let result :=
    text.validate_choice str_lower py_repr (VStr value) choices name false in
  ((∃ c, result = Return c)
   ↔ (∃ c, c ∈ choices ∧ str_lower c = str_lower value)) ∧
  (∀ c, result = Return c → c ∈ choices ∧ str_lower c = str_lower value) ∧
  ((∀ c, result ≠ Return c) →
     ∃ msg, result = Raise (mk_exn validation.ValidationError msg)) ∧
  (extends_ascii_lower str_lower →
   text.validate_choice str_lower py_repr (VStr "auto") ["Auto"; "On"; "Off"]
     name false
   = Return "Auto").
Proof.
  intros result.
  assert (Hmember : ∀ c, result = Return c →
                         c ∈ choices ∧ str_lower c = str_lower value).
  { intros c Hc. apply text_validate_choice_first_match in Hc as (i & Hi & Hl & _).
    split; [|done]. apply list_elem_of_lookup. by exists i. }
  split_and!.
  - split.
    + intros [c Hc]. exists c. by apply Hmember.
    + apply text_validate_choice_accepts.
  - apply Hmember.
  - intros Hfail. apply text_validate_choice_rejects. intros Hex.
    apply (text_validate_choice_accepts str_lower py_repr value choices name)
      in Hex as [c Hc].
    by apply (Hfail c).
  - intros Hascii. unfold text.validate_choice. cbn [fmap list_fmap].
    rewrite (Hascii "auto" eq_refl), (Hascii "Auto" eq_refl),
      (Hascii "On" eq_refl), (Hascii "Off" eq_refl).
    reflexivity.
Qed.

Lemma validate_choice_case_insensitive_witness :
  (∃ c, text.validate_choice lower (λ _, "") (VStr "ON") ["Auto"; "On"; "Off"]
          "mode" false = Return c)
  ∧ text.validate_choice lower (λ _, "") (VStr "auto") ["Auto"; "On"; "Off"]
      "mode" false = Return "Auto".
Proof.
  destruct (validate_choice_case_insensitive lower (λ _, "") "ON"
              ["Auto"; "On"; "Off"] "mode") as (Hiff & _ & _ & Hexample).
  split.
  - apply Hiff. exists "On". split; [|reflexivity].
    apply list_elem_of_In. right. left. reflexivity.
  - apply Hexample. intros s _. reflexivity.
Defined.

(* --------------------------------------------------------------------- *)
(** *** [validate_range] *)

Lemma float_cmp_antisym (x y : pyfloat) :
  float_cmp y x = CompOpp <$> float_cmp x y.
Proof.
  destruct x as [|[]|m1 e1], y as [|[]|m2 e2]; simpl; try done.
  by rewrite (Z.min_comm e2 e1), Z.compare_antisym.
Qed.

Lemma num_le_not_gt (x y : number) :
  is_nan x = false → is_nan y = false → num_le x y = negb (num_gt x y).
Proof.
  unfold num_le, num_gt, num_cmp.
  destruct x as [z1|[|[]|m1 e1]], y as [z2|[|[]|m2 e2]]; simpl; try done;
    by destruct (_ ?= _)%Z.
Qed.

Lemma num_le_not_lt (x y : number) :
  is_nan x = false → is_nan y = false → num_le x y = negb (num_lt y x).
Proof.
  unfold num_le, num_lt, num_cmp. intros Hx Hy.
  rewrite (float_cmp_antisym (float_of_number x) (float_of_number y)).
  destruct x as [z1|[|[]|m1 e1]], y as [z2|[|[]|m2 e2]]; simpl; try done;
    by destruct (_ ?= _)%Z.
Qed.

(** Away from NaN the validator accepts exactly the closed interval. *)
Lemma validate_range_inclusive py_repr (v min_val max_val : number) name :
  is_nan v = false → is_nan min_val = false → is_nan max_val = false →
  validation.validate_range py_repr (VNum v) min_val max_val name = Return tt
  ↔ num_le min_val v = true ∧ num_le v max_val = true.
Proof.
  intros Hv Hlo Hhi. unfold validation.validate_range. simpl.
  rewrite (num_le_not_lt min_val v), (num_le_not_gt v max_val) by done.
  destruct (num_lt v min_val), (num_gt v max_val); simpl; split;
    (done || by intros []).
Qed.

(** C9 (the code departs from the claim at NaN): for any bounds,
    [validate_range(float('nan'), min_val, max_val)] returns without raising
    although [min_val <= nan] is false. *)
Theorem validate_range_accepts_nan
    (py_repr : pyval → string) (min_val max_val : number) (name : string) :
  validation.validate_range py_repr (VNum (NFloat FNaN)) min_val max_val name
  = Return tt
  ∧ num_le min_val (NFloat FNaN) = false
  ∧ num_le (NFloat FNaN) max_val = false.
Proof.
  unfold validation.validate_range, num_le, num_lt, num_gt, num_cmp. simpl.
  by destruct (float_of_number min_val) as [|[]|],
             (float_of_number max_val) as [|[]|].
Qed.


(* ===================================================================== *)
(** ** Properties of the error-handler wrapper *)
(* ===================================================================== *)

(** Where the wrapped function returns, the wrapper returns the same. *)
Lemma handle_resolve_errors_passes_through {St} (func : pyfunc St)
    args kwargs s v s' :
  func args kwargs s = (Return v, s') →
  error_handler.handle_resolve_errors func args kwargs s = (Return v, s').
Proof.
  intros Hf. unfold error_handler.handle_resolve_errors, try_except.
  by rewrite Hf.
Qed.

(** The envelope produced for a raised exception, branch by branch. *)
Lemma handle_resolve_errors_unclassified {St} (func : pyfunc St)
    args kwargs s e s' :
  func args kwargs s = (Raise e, s') → unclassified e →
  error_handler.handle_resolve_errors func args kwargs s
  = (Return (VDict (response_formatter.error ("Unexpected error: " +:+ exn_str e)
                      (VStr "INTERNAL_ERROR") VNone ∅)), s').
Proof.
  intros Hf (Hc & Hv & Ho).
  unfold error_handler.handle_resolve_errors, try_except.
  by rewrite Hf, Hc, Hv, Ho.
Qed.

(** The exception raised by the validators of [validation.py] is not an
    instance of the class the wrapper tests for. *)
Lemma validation_layer_error_unclassified (msg : string) :
  unclassified (mk_exn validation.ValidationError msg).
Proof. by repeat split. Qed.

(** C2 (as stated fails): a classified exception with an empty message, such
    as [raise ConnectionError("")], yields an envelope whose message is the
    empty string. *)
Lemma handle_resolve_errors_empty_message :
  ∃ d, error_handler.handle_resolve_errors
         (λ _ _, raise (mk_exn error_handler.ConnectionError "")) [] ∅ tt
       = (Return (VDict d), tt)
     ∧ d !! "success" = Some (VBool false)
     ∧ d !! "message" = Some (VStr "").
Proof. eexists. by repeat split. Qed.

(** C2 (amended): for every exception raised inside the wrapped function the
    wrapper returns (it does not raise) an envelope with [success] false and
    a [message]; the message is the exception's own message for a classified
    exception, hence non-empty whenever that message is, and for an
    unclassified exception it is "Unexpected error: " followed by the
    exception's message, with [error_code] "INTERNAL_ERROR". *)
Theorem handle_resolve_errors_total {St : Type} (func : pyfunc St)
    (args : list pyobj) (kwargs : gmap string pyobj) (s s' : St) (e : exn) :
  func args kwargs s = (Raise e, s') →
  ∃ d msg,
    error_handler.handle_resolve_errors func args kwargs s = (Return (VDict d), s')
    ∧ d !! "success" = Some (VBool false)
    ∧ d !! "message" = Some (VStr msg)
    ∧ (exn_str e ≠ "" → msg ≠ "")
    ∧ (¬ unclassified e → msg = exn_str e)
    ∧ (unclassified e →
         msg = "Unexpected error: " +:+ exn_str e ∧ msg ≠ "" ∧
         d !! "error_code" = Some (VStr "INTERNAL_ERROR")).
Proof.
  intros Hf. unfold error_handler.handle_resolve_errors, try_except, unclassified.
  rewrite Hf.
  destruct (isinstance e error_handler.ConnectionError) eqn:Hc;
    [|destruct (isinstance e error_handler.ValidationError) eqn:Hv;
      [|destruct (isinstance e error_handler.OperationError) eqn:Ho]].
  1-3: eexists _, (exn_str e); split_and!; try done;
       intros (? & ? & ?); congruence.
  eexists _, _. split; [done|]. split_and!; try done.
  intros Hno. by destruct Hno.
Qed.

Lemma handle_resolve_errors_total_witness :
  let e := mk_exn error_handler.OperationError "No project currently open" in
  ∃ d msg,
    error_handler.handle_resolve_errors (λ _ _, raise e) [] ∅ tt
    = (Return (VDict d), tt)
    ∧ d !! "success" = Some (VBool false)
    ∧ d !! "message" = Some (VStr msg)
    ∧ (exn_str e ≠ "" → msg ≠ "")
    ∧ (¬ unclassified e → msg = exn_str e)
    ∧ (unclassified e →
         msg = "Unexpected error: " +:+ exn_str e ∧ msg ≠ "" ∧
         d !! "error_code" = Some (VStr "INTERNAL_ERROR")).
Proof.
  apply (handle_resolve_errors_total
           (λ _ _, raise (mk_exn error_handler.OperationError
                            "No project currently open"))
           [] ∅ tt tt
           (mk_exn error_handler.OperationError "No project currently open")).
  reflexivity.
Defined.

(** C3 (the code departs from the claim): a wrapped function whose body
    fails [validate_non_empty_string("", "node_type")] gets the envelope of
    an unexpected error, with [error_code] "INTERNAL_ERROR". *)
Theorem handle_resolve_errors_validation_layer :
  ∃ d, error_handler.handle_resolve_errors
         (λ _ _, let* _ := lift (validation.validate_non_empty_string
                                   (VStr "") "node_type") in
                 ret VNone) [] ∅ tt
       = (Return (VDict d), tt)
     ∧ d !! "success" = Some (VBool false)
     ∧ d !! "message" = Some (VStr "Unexpected error: node_type cannot be empty")
     ∧ d !! "error_code" = Some (VStr "INTERNAL_ERROR").
Proof. eexists. by repeat split. Qed.

(** Every failure signalled by the modelled validators has the class
    [validation.ValidationError]. *)
Lemma validators_raise_validation_error py_repr (v : pyval) name e :
  (∃ lo hi, validation.validate_range py_repr v lo hi name = Raise e) ∨
  validation.validate_positive_integer py_repr v name = Raise e ∨
  validation.validate_non_empty_string v name = Raise e →
  exn_class e = validation.ValidationError.
Proof.
  unfold validation.validate_range, validation.validate_positive_integer,
    validation.validate_non_empty_string.
  intros [(lo & hi & H)|[H|H]].
  - destruct (validation.as_number v); [destruct (_ || _)|];
      by inversion H.
  - destruct (validation.as_int v) as [z|]; [destruct (z <=? 0)%Z|];
      by inversion H.
  - destruct v; try by inversion H.
    destruct (negb _); by inversion H.
Qed.

(** Whatever a wrapped function raises with the validators' class is
    reported as an internal error. *)
Lemma handle_resolve_errors_validation_class {St} (func : pyfunc St)
    args kwargs s msg s' :
  func args kwargs s = (Raise (mk_exn validation.ValidationError msg), s') →
  error_handler.handle_resolve_errors func args kwargs s
  = (Return (VDict (response_formatter.error ("Unexpected error: " +:+ msg)
                      (VStr "INTERNAL_ERROR") VNone ∅)), s').
Proof.
  intros Hf.
  by apply (handle_resolve_errors_unclassified func args kwargs s _ s' Hf),
    validation_layer_error_unclassified.
Qed.


(* ===================================================================== *)
(** ** Properties of the page-state guard *)
(* ===================================================================== *)

Section guard_facts.
Context {S : Type} (h : HostAPI S).
Variables (page_name func_name : string) (func : pyfunc (world S)).
Variables (args : list pyobj) (kwargs : gmap string pyobj).

Local Abbreviation guarded := (page_manager.ensure_page h page_name func_name func args kwargs).

(** No handle among the arguments: nothing is called. *)
Lemma ensure_page_no_handle (w : world S) :
  obj_truthy (page_manager._extract_resolve_object args kwargs) = false →
  guarded w
  = (Return (page_manager.error_dict
               ("Could not find 'resolve' object for function " +:+ func_name)), w).
Proof.
  intros He. unfold page_manager.ensure_page. by rewrite He.
Qed.

(** The current page is the required one, up to letter case. *)
Lemma ensure_page_unswitched (w : world S) (current_page : string) :
  page_manager._extract_resolve_object args kwargs = Resolve →
  GetCurrentPage h (host w) = Return (VStr current_page) →
  lower current_page = lower page_name →
  guarded w
  = let w1 := mkWorld (host w)
                (calls w ++ [CallGetCurrentPage; CallWrapped func_name]) in
    (guard_result func_name (func args kwargs w1).1, (func args kwargs w1).2).
Proof.
  intros He Hcur Heq. unfold page_manager.ensure_page.
  rewrite He. simpl.
  unfold try_except, bind, host_call. rewrite Hcur, Heq, String.eqb_refl. simpl.
  unfold try_finally, invoke, log, ret. simpl.
  rewrite <-(assoc_L (++)). simpl.
  by destruct (func args kwargs _) as [[v|e] w'].
Qed.

(** The switch to the required page is refused. *)
Lemma ensure_page_switch_refused (w : world S) (current_page : string)
    (result : pyval) (s1 : S) :
  page_manager._extract_resolve_object args kwargs = Resolve →
  GetCurrentPage h (host w) = Return (VStr current_page) →
  lower current_page ≠ lower page_name →
  OpenPage h page_name (host w) = (Return result, s1) →
  truthy result = false →
  guarded w
  = (Return (page_manager.error_dict ("Failed to switch to " +:+ page_name +:+ " page")),
     mkWorld s1 (calls w ++ [CallGetCurrentPage; CallOpenPage page_name])).
Proof.
  intros He Hcur Hne Hopen Hfalse. unfold page_manager.ensure_page.
  rewrite He. simpl.
  unfold try_except, bind, host_call. rewrite Hcur. simpl.
  apply String.eqb_neq in Hne. rewrite Hne. simpl.
  rewrite Hopen, Hfalse. simpl.
  by rewrite <-(assoc_L (++)).
Qed.

(** The switch succeeds: the wrapped function runs on the required page and
    the guard then asks for the page it found. *)
Lemma ensure_page_switched (w : world S) (current_page : string)
    (result : pyval) (s1 : S) :
  page_manager._extract_resolve_object args kwargs = Resolve →
  GetCurrentPage h (host w) = Return (VStr current_page) →
  lower current_page ≠ lower page_name →
  OpenPage h page_name (host w) = (Return result, s1) →
  truthy result = true →
  guarded w
  = let w1 := mkWorld s1
                (calls w ++ [CallGetCurrentPage; CallOpenPage page_name;
                             CallWrapped func_name]) in
    let w2 := (func args kwargs w1).2 in
    (guard_result func_name (func args kwargs w1).1,
     mkWorld (OpenPage h current_page (host w2)).2
       (calls w2 ++ [CallOpenPage current_page])).
Proof.
  intros He Hcur Hne Hopen Htrue. unfold page_manager.ensure_page.
  rewrite He. simpl.
  unfold try_except, bind, host_call. rewrite Hcur. simpl.
  apply String.eqb_neq in Hne. rewrite Hne. simpl.
  rewrite Hopen, Htrue. simpl.
  unfold try_finally, invoke, log, ret. simpl.
  rewrite <-!(assoc_L (++)). simpl.
  destruct (func args kwargs _) as [[v|e] w2]; simpl;
    by destruct (OpenPage h current_page (host w2)) as [[r|e'] s3].
Qed.

End guard_facts.

Lemma studio_switch_takes_effect : switch_takes_effect studio.api.
Proof.
  intros p s r s'. simpl. unfold studio.open_page.
  destruct (studio.busy s); [by intros [= <- <-]|].
  destruct (str_in p page_manager.get_valid_pages); by intros [= <- <-].
Qed.

(** C1 (as stated fails): from page "edit" the guard switches to "fusion"
    successfully, the wrapped operation returns a success envelope and leaves
    the host busy, the restoring [OpenPage("edit")] is refused, and the host
    ends on "fusion". *)
Lemma ensure_page_restore_can_fail :
  let w := studio.on_page "edit" in
  let r := page_manager.ensure_page studio.api "fusion" "start_render"
             studio.start_render [Resolve] ∅ w in
  GetCurrentPage studio.api (host w) = Return (VStr "edit")
  ∧ (OpenPage studio.api "fusion" (host w)).1 = Return (VBool true)
  ∧ r.1 = Return (VDict (response_formatter.success "Render started" VNone ∅))
  ∧ GetCurrentPage studio.api (host r.2) = Return (VStr "fusion")
  ∧ GetCurrentPage studio.api (host r.2) ≠ GetCurrentPage studio.api (host w).
Proof. by split_and!. Qed.

(** C1 (amended): on a host where a successful [OpenPage] takes effect, if
    the guard's initial switch succeeds and its restoring [OpenPage] call
    reports success, then, whatever the wrapped function returns or raises,
    the host's active page after the guarded call is the page that was active
    before it. *)
Theorem ensure_page_restores_page {S : Type} (h : HostAPI S)
    (page_name func_name : string) (func : pyfunc (world S))
    (args : list pyobj) (kwargs : gmap string pyobj)
    (w : world S) (current_page : string) (result : pyval) (s1 : S) :
  switch_takes_effect h →
  page_manager._extract_resolve_object args kwargs = Resolve →
  GetCurrentPage h (host w) = Return (VStr current_page) →
  lower current_page ≠ lower page_name →
  OpenPage h page_name (host w) = (Return result, s1) →
  truthy result = true →
  let w1 := mkWorld s1 (calls w ++ [CallGetCurrentPage; CallOpenPage page_name;
                                    CallWrapped func_name]) in
  let after_func := func args kwargs w1 in
  (∃ r s3, OpenPage h current_page (host after_func.2) = (Return r, s3)
           ∧ truthy r = true) →
  let final := page_manager.ensure_page h page_name func_name func args kwargs w in
  final.1 = guard_result func_name after_func.1
  ∧ GetCurrentPage h (host final.2) = GetCurrentPage h (host w).
Proof.
  intros Hlaw He Hcur Hne Hopen Htrue w1 after_func (r & s3 & Hrestore & Hr) final.
  subst final.
  rewrite (ensure_page_switched h page_name func_name func args kwargs
             w current_page result s1) by done.
  simpl. split; [done|].
  fold w1. fold after_func. rewrite Hrestore, Hcur. simpl.
  by apply (Hlaw current_page (host after_func.2) r s3).
Qed.

Lemma ensure_page_restores_page_witness :
  let final := page_manager.ensure_page studio.api "fusion" "noop" studio.noop
                 [Resolve] ∅ (studio.on_page "edit") in
  final.1 = Return (VDict (response_formatter.success "done" VNone ∅))
  ∧ GetCurrentPage studio.api (host final.2) = Return (VStr "edit").
Proof.
  apply (ensure_page_restores_page studio.api "fusion" "noop" studio.noop
           [Resolve] ∅ (studio.on_page "edit") "edit" (VBool true)
           (studio.mk "fusion" false)).
  - exact studio_switch_takes_effect.
  - reflexivity.
  - reflexivity.
  - vm_compute. discriminate.
  - reflexivity.
  - reflexivity.
  - exists (VBool true), (studio.mk "edit" false). split; reflexivity.
Defined.

(** C4 (as stated fails): when the host refuses the switch the guard
    returns [{"error": "Failed to switch to fusion page"}], a mapping without
    [success] or [message], hence not an error envelope. *)
Lemma ensure_page_refusal_is_not_an_envelope :
  let w := mkWorld (studio.mk "edit" true) [] in
  let r := page_manager.ensure_page studio.api "fusion" "noop" studio.noop
             [Resolve] ∅ w in
  (OpenPage studio.api "fusion" (host w)).1 = Return (VBool false)
  ∧ r.1 = Return (VDict {["error" := VStr "Failed to switch to fusion page"]})
  ∧ ¬ (∃ v, r.1 = Return v ∧ is_error_envelope v).
Proof.
  split_and!; [done..|].
  intros (v & Hv & d & -> & Hs & _). vm_compute in Hv.
  injection Hv as <-. vm_compute in Hs. discriminate.
Qed.

(** C4 (amended): if the host's [OpenPage] for the required page returns a
    falsy result, the wrapped function is never invoked (the calls made are
    the page query and the refused switch only) and the guard returns the
    mapping [{"error": "Failed to switch to <page> page"}], which has no
    [success], [message] or [error_code] key. *)
Theorem ensure_page_refused_switch {S : Type} (h : HostAPI S)
    (page_name func_name : string) (func : pyfunc (world S))
    (args : list pyobj) (kwargs : gmap string pyobj)
    (w : world S) (current_page : string) (result : pyval) (s1 : S) :
  page_manager._extract_resolve_object args kwargs = Resolve →
  GetCurrentPage h (host w) = Return (VStr current_page) →
  lower current_page ≠ lower page_name →
  OpenPage h page_name (host w) = (Return result, s1) →
  truthy result = false →
  let final := page_manager.ensure_page h page_name func_name func args kwargs w in
  ∃ d, final.1 = Return (VDict d)
       ∧ d = {["error" := VStr ("Failed to switch to " +:+ page_name +:+ " page")]}
       ∧ d !! "success" = None ∧ d !! "message" = None ∧ d !! "error_code" = None
       ∧ host final.2 = s1
       ∧ calls final.2 = (calls w ++ [CallGetCurrentPage; CallOpenPage page_name])%list
       ∧ CallWrapped func_name ∉ [CallGetCurrentPage; CallOpenPage page_name].
Proof.
  intros He Hcur Hne Hopen Hfalse final. subst final.
  rewrite (ensure_page_switch_refused h page_name func_name func args kwargs
             w current_page result s1) by done.
  eexists. split; [done|]. split_and!; try done.
  intros Hin. apply elem_of_cons in Hin as [?|Hin]; [done|].
  apply elem_of_cons in Hin as [?|Hin]; [done|]. by apply elem_of_nil in Hin.
Qed.

Lemma ensure_page_refused_switch_witness :
  let final := page_manager.ensure_page studio.api "fusion" "noop" studio.noop
                 [Resolve] ∅ (mkWorld (studio.mk "edit" true) []) in
  ∃ d, final.1 = Return (VDict d)
       ∧ d = {["error" := VStr "Failed to switch to fusion page"]}
       ∧ d !! "success" = None ∧ d !! "message" = None ∧ d !! "error_code" = None
       ∧ host final.2 = studio.mk "edit" true
       ∧ calls final.2 = [CallGetCurrentPage; CallOpenPage "fusion"]
       ∧ CallWrapped "noop" ∉ [CallGetCurrentPage; CallOpenPage "fusion"].
Proof.
  apply (ensure_page_refused_switch studio.api "fusion" "noop" studio.noop
           [Resolve] ∅ (mkWorld (studio.mk "edit" true) []) "edit" (VBool false)
           (studio.mk "edit" true)).
  - reflexivity.
  - reflexivity.
  - vm_compute. discriminate.
  - reflexivity.
  - reflexivity.
Defined.

(** C10 (as stated fails): the host is on page "fusion" and the guard
    requires "fusion", but the call carries no handle among its arguments:
    the guard does not run the wrapped function and returns
    [{"error": "Could not find 'resolve' object for function noop"}], not the
    value the function returns. *)
Lemma ensure_page_same_page_without_handle :
  let w := studio.on_page "fusion" in
  let final := page_manager.ensure_page studio.api "fusion" "noop" studio.noop
                 [] ∅ w in
  GetCurrentPage studio.api (host w) = Return (VStr "fusion")
  ∧ (studio.noop [] ∅ w).1
    = Return (VDict (response_formatter.success "done" VNone ∅))
  ∧ final.1 = Return (page_manager.error_dict
                        "Could not find 'resolve' object for function noop")
  ∧ final.1 ≠ (studio.noop [] ∅ w).1
  ∧ CallWrapped "noop" ∉ calls final.2.
Proof.
  split_and!; try reflexivity.
  - intros Heq. vm_compute in Heq. discriminate.
  - intros Hin. by apply elem_of_nil in Hin.
Qed.

(** C10 (amended): when the guard finds the host handle among the call's
    arguments and the host's current page equals the required page up to
    letter case, the guard's only host call is the page query: the world
    after the guarded call is the one the wrapped function produces from the
    unchanged host state (no [OpenPage] before or after it), and a value
    returned by the wrapped function is returned unchanged. *)
Theorem ensure_page_same_page_transparent {S : Type} (h : HostAPI S)
    (page_name func_name : string) (func : pyfunc (world S))
    (args : list pyobj) (kwargs : gmap string pyobj)
    (w : world S) (current_page : string) :
  page_manager._extract_resolve_object args kwargs = Resolve →
  GetCurrentPage h (host w) = Return (VStr current_page) →
  lower current_page = lower page_name →
  let w1 := mkWorld (host w) (calls w ++ [CallGetCurrentPage; CallWrapped func_name]) in
  let final := page_manager.ensure_page h page_name func_name func args kwargs w in
  final.2 = (func args kwargs w1).2
  ∧ (∀ v, (func args kwargs w1).1 = Return v → final.1 = Return v)
  ∧ (∀ p, CallOpenPage p ∉ [CallGetCurrentPage; CallWrapped func_name]).
Proof.
  intros He Hcur Heq w1 final. subst final.
  rewrite (ensure_page_unswitched h page_name func_name func args kwargs
             w current_page) by done.
  simpl. fold w1. split_and!; [done| |].
  - by intros v ->.
  - intros p Hin. apply elem_of_cons in Hin as [?|Hin]; [done|].
    apply elem_of_cons in Hin as [?|Hin]; [done|]. by apply elem_of_nil in Hin.
Qed.

Lemma ensure_page_same_page_transparent_witness :
  let final := page_manager.ensure_page studio.api "fusion" "noop" studio.noop
                 [Resolve] ∅ (studio.on_page "Fusion") in
  final.2 = mkWorld (studio.mk "Fusion" false) [CallGetCurrentPage; CallWrapped "noop"]
  ∧ (∀ v, Return (VDict (response_formatter.success "done" VNone ∅)) = Return v →
          final.1 = Return v)
  ∧ (∀ p, CallOpenPage p ∉ [CallGetCurrentPage; CallWrapped "noop"]).
Proof.
  apply (ensure_page_same_page_transparent studio.api "fusion" "noop" studio.noop
           [Resolve] ∅ (studio.on_page "Fusion") "Fusion").
  - reflexivity.
  - reflexivity.
  - reflexivity.
Defined.


(* ===================================================================== *)
(** ** Page names reaching the host *)
(* ===================================================================== *)

(** C7 (as stated fails): the guard does not validate the names it passes
    to the host.  [ensure_page("render")] on page "edit" calls
    [OpenPage("render")], although "render" is not a page name; and
    [ensure_page("fusion")] on a host reporting "Edit" restores with
    [OpenPage("Edit")], the name exactly as the host reported it. *)
Lemma ensure_page_forwards_unknown_page :
  let r := page_manager.ensure_page studio.api "render" "noop" studio.noop
             [Resolve] ∅ (studio.on_page "edit") in
  let r' := page_manager.ensure_page studio.api "fusion" "noop" studio.noop
              [Resolve] ∅ (studio.on_page "Edit") in
  page_manager.validate_page_name "render" = false
  ∧ ("render" ∉ page_manager.get_valid_pages)
  ∧ calls r.2 = [CallGetCurrentPage; CallOpenPage "render"]
  ∧ ("Edit" ∉ page_manager.get_valid_pages)
  ∧ calls r'.2 = [CallGetCurrentPage; CallOpenPage "fusion"; CallWrapped "noop";
                  CallOpenPage "Edit"].
Proof.
  split_and!; try done.
  - intros Hin%str_in_spec. vm_compute in Hin. discriminate.
  - intros Hin%str_in_spec. vm_compute in Hin. discriminate.
Qed.

(** C7 (amended to [switch_page]): [switch_page] never raises; for every
    name outside the closed page set, compared case-insensitively, it returns
    an error string and calls nothing; and the only call it ever makes is
    [OpenPage] with the lower-cased name, which then belongs to the set. *)
Theorem switch_page_validates {S : Type} (h : HostAPI S) (resolve : pyobj)
    (page : string) (w : world S) :
  let r := core_operations.switch_page h resolve page w in
  (∃ msg, r.1 = Return (VStr msg))
  ∧ (str_in (lower page) page_manager.get_valid_pages = false →
       r.2 = w ∧ ∃ msg, r.1 = Return (VStr ("Error: " +:+ msg)))
  ∧ (calls r.2 = calls w
     ∨ (calls r.2 = (calls w ++ [CallOpenPage (lower page)])%list
        ∧ lower page ∈ page_manager.get_valid_pages)).
Proof.
  intros r. subst r. unfold core_operations.switch_page.
  fold page_manager.get_valid_pages.
  destruct (str_in (lower page) page_manager.get_valid_pages) eqn:Hvalid.
  - apply str_in_spec in Hvalid.
    destruct resolve as [v|].
    + destruct v; simpl; (split_and!; [by eexists|done|by left]).
    + simpl. unfold try_except, bind, host_call. simpl.
      destruct (OpenPage h (lower page) (host w)) as [[result|e] s']; simpl.
      * destruct (truthy result); simpl; (split_and!; [by eexists|done|by right]).
      * split_and!; [by eexists|done|by right].
  - destruct resolve as [v|]; [destruct v|]; simpl;
      (split_and!; [by eexists| |by left]);
      (intros _; split; [done|]; eexists; reflexivity).
Qed.

Lemma switch_page_validates_witness :
  let r := core_operations.switch_page studio.api Resolve "Render"
             (studio.on_page "edit") in
  (∃ msg, r.1 = Return (VStr msg))
  ∧ (r.2 = studio.on_page "edit" ∧ ∃ msg, r.1 = Return (VStr ("Error: " +:+ msg)))
  ∧ (calls r.2 = []
     ∨ (calls r.2 = [CallOpenPage "render"]
        ∧ "render" ∈ page_manager.get_valid_pages)).
Proof.
  pose proof (switch_page_validates studio.api Resolve "Render"
                (studio.on_page "edit")) as (Hret & Hinvalid & Hcalls).
  split; [exact Hret|]. split; [|exact Hcalls].
  apply Hinvalid. reflexivity.
Defined.

(* ===================================================================== *)
(** ** Operations invoked without a host handle *)
(* ===================================================================== *)

(** C5 (as stated fails): with a null handle [set_cache_mode] returns the
    plain string "Error: Not connected to DaVinci Resolve", not a mapping
    with [error_code] "CONNECTION_ERROR". *)
Lemma set_cache_mode_null_handle_returns_string :
  let r := cache_management.set_cache_mode studio.api (Val VNone) "Auto"
             (studio.on_page "edit") in
  r.1 = Return (VStr "Error: Not connected to DaVinci Resolve")
  ∧ ¬ (∃ d, r.1 = Return (VDict d)
            ∧ d !! "success" = Some (VBool false)
            ∧ d !! "error_code" = Some (VStr "CONNECTION_ERROR")).
Proof.
  split; [done|]. intros (d & Hd & _). vm_compute in Hd. discriminate.
Qed.

(** The two operations modelled in full follow the pattern of [registry]:
    the test of the handle with the value of the table, then the rest. *)
Lemma switch_page_in_registry {S : Type} (h : HostAPI S) (resolve : pyobj)
    (page : string) :
  core_operations.switch_page h resolve page
  = registry.invoke (λ _ _, core_operations.switch_page h resolve page)
      resolve registry.switch_page ∅.
Proof. by destruct resolve as [[]|]. Qed.

Lemma set_cache_mode_in_registry {S : Type} (h : HostAPI S) (resolve : pyobj)
    (mode : string) :
  cache_management.set_cache_mode h resolve mode
  = registry.invoke (λ _ _, cache_management.set_cache_mode h resolve mode)
      resolve registry.set_cache_mode ∅.
Proof. by destruct resolve as [[]|]. Qed.

(** C5 (amended): every registered operation that tests the handle itself
    (the forty-one of [registry.operation]) returns, when the handle is null,
    its not-connected value whatever its arguments and whatever the rest of
    its body is: nothing is raised, the host is not called and its state is
    untouched.  That value is the string "Error: Not connected to DaVinci
    Resolve", the one-element list of that string, or a mapping with the key
    [error] and neither [success] nor [error_code]; it is never a mapping
    with [success] false and [error_code] "CONNECTION_ERROR". *)
Theorem null_handle_registered_operations {S : Type}
    (rest : registry.operation → gmap string pyval → M (world S) pyval)
    (op : registry.operation) (arguments : gmap string pyval) (w : world S) :
  let r := registry.invoke rest (Val VNone) op arguments w in
  r = (Return (registry.not_connected op), w)
  ∧ (registry.not_connected op = VStr "Error: Not connected to DaVinci Resolve"
     ∨ registry.not_connected op
       = VList [VStr "Error: Not connected to DaVinci Resolve"]
     ∨ ∃ d, registry.not_connected op = VDict d
            ∧ d !! "error" = Some (VStr "Not connected to DaVinci Resolve")
            ∧ d !! "success" = None
            ∧ d !! "error_code" = None)
  ∧ ¬ (∃ d, r.1 = Return (VDict d)
            ∧ d !! "success" = Some (VBool false)
            ∧ d !! "error_code" = Some (VStr "CONNECTION_ERROR")).
Proof.
  intros r. subst r.
  assert (Hshape :
    registry.not_connected op = VStr "Error: Not connected to DaVinci Resolve"
    ∨ registry.not_connected op
      = VList [VStr "Error: Not connected to DaVinci Resolve"]
    ∨ ∃ d, registry.not_connected op = VDict d
           ∧ d !! "error" = Some (VStr "Not connected to DaVinci Resolve")
           ∧ d !! "success" = None
           ∧ d !! "error_code" = None).
  { destruct op; cbn;
      first [ by left | by right; left
            | right; right; eexists; split; [reflexivity|];
              split_and!; vm_compute; reflexivity ]. }
  split_and!; [done|exact Hshape|].
  cbn. intros (d & [= Hd] & Hsuccess & _).
  destruct Hshape as [Hs|[Hl|(d' & Hd' & _ & Hnone & _)]]; [congruence..|].
  rewrite Hd in Hd'. injection Hd' as <-. congruence.
Qed.

(** The sibling check [validate_resolve_state] of [error_handler.py] raises
    the connection failure, which the wrapper does report as
    "CONNECTION_ERROR"; none of the modelled operations uses either. *)
Lemma validate_resolve_state_under_wrapper {S : Type} (h : HostAPI S) (w : world S) :
  ∃ d, error_handler.handle_resolve_errors
         (λ _ _, let* _ := error_handler.validate_resolve_state h (Val VNone) in
                 ret VNone) [] ∅ w
       = (Return (VDict d), w)
     ∧ d !! "success" = Some (VBool false)
     ∧ d !! "error_code" = Some (VStr "CONNECTION_ERROR").
Proof.
  eexists. split; [reflexivity|]. split; [done|].
  by apply error_code_lookup.
Qed.


(* ===================================================================== *)
(** ** Further properties of the page-state guard *)
(* ===================================================================== *)

Lemma try_except_returns {St A} (m : M St A) (handler : exn → M St A) (s : St) :
  (∀ e s', returns (handler e s').1) → returns (try_except m handler s).1.
Proof.
  intros Hh. unfold try_except. destruct (m s) as [[a|e] s']; [by exists a|].
  apply Hh.
Qed.

Lemma ensure_page_returns {S : Type} (h : HostAPI S)
    (page_name func_name : string) (func : pyfunc (world S))
    (args : list pyobj) (kwargs : gmap string pyobj) (w : world S) :
  returns (page_manager.ensure_page h page_name func_name func args kwargs w).1.
Proof.
  unfold page_manager.ensure_page.
  destruct (negb _); [by eexists|].
  apply try_except_returns. intros e s'. by eexists.
Qed.

(** X1: the guard never raises: whatever the host, the wrapped function and
    the arguments do, a guarded call returns a value. *)
Theorem ensure_page_never_raises {S : Type} (h : HostAPI S)
    (page_name func_name : string) (func : pyfunc (world S))
    (args : list pyobj) (kwargs : gmap string pyobj) (w : world S) :
  ∃ v, (page_manager.ensure_page h page_name func_name func args kwargs w).1
       = Return v.
Proof. apply ensure_page_returns. Qed.

(** X2: once the switch has succeeded, the guard's last host call is the
    restoring [OpenPage] of the page it found, whether the wrapped function
    returned or raised; and whatever that call does (succeed, refuse or
    raise), the result is the function's value or, for an exception, the
    page-management error mapping. *)
Theorem ensure_page_restore_always_attempted {S : Type} (h : HostAPI S)
    (page_name func_name : string) (func : pyfunc (world S))
    (args : list pyobj) (kwargs : gmap string pyobj)
    (w : world S) (current_page : string) (result : pyval) (s1 : S) :
  page_manager._extract_resolve_object args kwargs = Resolve →
  GetCurrentPage h (host w) = Return (VStr current_page) →
  lower current_page ≠ lower page_name →
  OpenPage h page_name (host w) = (Return result, s1) →
  truthy result = true →
  let w1 := mkWorld s1 (calls w ++ [CallGetCurrentPage; CallOpenPage page_name;
                                    CallWrapped func_name]) in
  let final := page_manager.ensure_page h page_name func_name func args kwargs w in
  final.1 = guard_result func_name (func args kwargs w1).1
  ∧ last (calls final.2) = Some (CallOpenPage current_page)
  ∧ calls final.2 = (calls (func args kwargs w1).2 ++ [CallOpenPage current_page])%list.
Proof.
  intros He Hcur Hne Hopen Htrue w1 final. subst final.
  rewrite (ensure_page_switched h page_name func_name func args kwargs
             w current_page result s1) by done.
  simpl. fold w1. split_and!; [done| |done].
  by rewrite last_snoc.
Qed.

Lemma ensure_page_restore_always_attempted_witness :
  let final := page_manager.ensure_page (scripted.api (Return (VStr "edit"))
                 (Return (VBool true))) "fusion" "failing" scripted.failing
                 [Resolve] ∅ scripted.start in
  final.1 = Return (page_manager.error_dict
                      "Error in page management for failing: connection lost")
  ∧ last (calls final.2) = Some (CallOpenPage "edit")
  ∧ calls final.2 = [CallGetCurrentPage; CallOpenPage "fusion";
                     CallWrapped "failing"; CallOpenPage "edit"].
Proof.
  apply (ensure_page_restore_always_attempted
           (scripted.api (Return (VStr "edit")) (Return (VBool true)))
           "fusion" "failing" scripted.failing [Resolve] ∅ scripted.start
           "edit" (VBool true) tt).
  - reflexivity.
  - reflexivity.
  - vm_compute. discriminate.
  - reflexivity.
  - reflexivity.
Defined.

(** X3: a guarded function called with plain data only (no handle among the
    positional or keyword arguments, as when a request's arguments are passed
    on) is never run: the guard returns an error mapping and touches neither
    the host nor the record of calls, whatever handle the function itself
    would have used. *)
Theorem ensure_page_data_only_call {S : Type} (h : HostAPI S)
    (page_name func_name : string) (func : pyfunc (world S))
    (positional : list pyval) (arguments : gmap string pyval) (w : world S) :
  ∃ msg, page_manager.ensure_page h page_name func_name func
           (Val <$> positional) (Val <$> arguments) w
         = (Return (page_manager.error_dict msg), w).
Proof.
  unfold page_manager.ensure_page, page_manager._extract_resolve_object.
  rewrite lookup_fmap, !list_lookup_fmap.
  destruct (arguments !! "resolve") as [v|]; simpl.
  - destruct (truthy v) eqn:Hv; simpl.
    + rewrite Hv. simpl. by eexists.
    + destruct (positional !! 0%nat); simpl; [|by eexists].
      destruct (positional !! 1%nat); simpl; by eexists.
  - destruct (positional !! 0%nat); simpl; [|by eexists].
    destruct (positional !! 1%nat); simpl; by eexists.
Qed.

(** X4: [_extract_resolve_object] finds the handle exactly when it is the
    [resolve] keyword argument or, no truthy [resolve] keyword being given,
    the first or second positional argument; a handle further right is not
    found. *)
Theorem extract_resolve_object_finds_handle
    (args : list pyobj) (kwargs : gmap string pyobj) :
  page_manager._extract_resolve_object args kwargs = Resolve
  ↔ kwargs !! "resolve" = Some Resolve
    ∨ (obj_truthy (default (Val VNone) (kwargs !! "resolve")) = false
       ∧ (args !! 0%nat = Some Resolve ∨ args !! 1%nat = Some Resolve)).
Proof.
  unfold page_manager._extract_resolve_object.
  destruct (kwargs !! "resolve") as [[v|]|]; simpl;
    [destruct (truthy v); simpl| |];
    try (destruct args as [|[a0|] [|[a1|] rest]]; simpl);
    naive_solver.
Qed.

(** X5: when the guard cannot learn the current page or cannot switch, it
    reports an error mapping and stops: if [GetCurrentPage] raises, or
    returns something that is not a string, the only call made is that
    query; if the switching [OpenPage] raises, the calls are the query and
    the switch; the wrapped function is not invoked in any of these cases. *)
Theorem ensure_page_stops_on_host_failure {S : Type} (h : HostAPI S)
    (page_name func_name : string) (func : pyfunc (world S))
    (args : list pyobj) (kwargs : gmap string pyobj) (w : world S) :
  page_manager._extract_resolve_object args kwargs = Resolve →
  let final := page_manager.ensure_page h page_name func_name func args kwargs w in
  let report (msg : string) :=
    Return (page_manager.error_dict
              ("Error in page management for " +:+ func_name +:+ ": " +:+ msg)) in
  (∀ e, GetCurrentPage h (host w) = Raise e →
        final = (report (exn_str e), log CallGetCurrentPage w))
  ∧ (∀ v, GetCurrentPage h (host w) = Return v → (∀ s, v ≠ VStr s) →
          final = (report ("'" +:+ type_name v +:+ "' object has no attribute 'lower'"),
                   log CallGetCurrentPage w))
  ∧ (∀ current_page e s1,
       GetCurrentPage h (host w) = Return (VStr current_page) →
       lower current_page ≠ lower page_name →
       OpenPage h page_name (host w) = (Raise e, s1) →
       final = (report (exn_str e),
                mkWorld s1 (calls w ++ [CallGetCurrentPage; CallOpenPage page_name]))).
Proof.
  intros He final report. subst final report.
  unfold page_manager.ensure_page. rewrite He. simpl.
  unfold try_except, bind, host_call, log. split_and!.
  - by intros e ->.
  - intros v -> Hv. destruct v; try done. by destruct (Hv s).
  - intros current_page e s1 -> Hne%String.eqb_neq Hopen. simpl.
    rewrite Hne. simpl. rewrite Hopen. simpl. by rewrite <-(assoc_L (++)).
Qed.

Lemma ensure_page_stops_on_host_failure_witness :
  page_manager.ensure_page (scripted.api (Return VNone) (Return (VBool true)))
    "fusion" "noop" (λ _ _, ret VNone) [Resolve] ∅ scripted.start
  = (Return (page_manager.error_dict
       "Error in page management for noop: 'NoneType' object has no attribute 'lower'"),
     mkWorld tt [CallGetCurrentPage]).
Proof.
  pose proof (ensure_page_stops_on_host_failure
                (scripted.api (Return VNone) (Return (VBool true)))
                "fusion" "noop" (λ _ _, ret VNone) [Resolve] ∅ scripted.start
                eq_refl) as (_ & Hnone & _).
  apply (Hnone VNone); [reflexivity|discriminate].
Defined.

(** X6: wrapping a guarded function with the error handler changes nothing:
    the guard already turns every exception of the wrapped function into its
    own error mapping, so the handler never sees one. *)
Theorem handle_resolve_errors_around_guard {S : Type} (h : HostAPI S)
    (page_name func_name : string) (func : pyfunc (world S))
    (args : list pyobj) (kwargs : gmap string pyobj) (w : world S) :
  error_handler.handle_resolve_errors
    (page_manager.ensure_page h page_name func_name func) args kwargs w
  = page_manager.ensure_page h page_name func_name func args kwargs w.
Proof.
  destruct (ensure_page_returns h page_name func_name func args kwargs w) as [v Hv].
  destruct (page_manager.ensure_page h page_name func_name func args kwargs w)
    as [r w'] eqn:Hg.
  simpl in Hv. subst r. by apply handle_resolve_errors_passes_through.
Qed.

(** X7: with the error handler inside the guard, an exception the handler does
    not classify is reported as the "INTERNAL_ERROR" envelope (not as the
    guard's error mapping), and after a successful switch the restoring
    [OpenPage] is still the last call. *)
Theorem guard_around_handle_resolve_errors {S : Type} (h : HostAPI S)
    (page_name func_name : string) (func : pyfunc (world S))
    (args : list pyobj) (kwargs : gmap string pyobj)
    (w w2 : world S) (current_page : string) (result : pyval) (s1 : S) (e : exn) :
  page_manager._extract_resolve_object args kwargs = Resolve →
  GetCurrentPage h (host w) = Return (VStr current_page) →
  lower current_page ≠ lower page_name →
  OpenPage h page_name (host w) = (Return result, s1) →
  truthy result = true →
  func args kwargs
    (mkWorld s1 (calls w ++ [CallGetCurrentPage; CallOpenPage page_name;
                             CallWrapped func_name])) = (Raise e, w2) →
  unclassified e →
  let final := page_manager.ensure_page h page_name func_name
                 (error_handler.handle_resolve_errors func) args kwargs w in
  final.1 = Return (VDict (response_formatter.error
                             ("Unexpected error: " +:+ exn_str e)
                             (VStr "INTERNAL_ERROR") VNone ∅))
  ∧ calls final.2 = (calls w2 ++ [CallOpenPage current_page])%list
  ∧ host final.2 = (OpenPage h current_page (host w2)).2.
Proof.
  intros He Hcur Hne Hopen Htrue Hf Hun final. subst final.
  rewrite (ensure_page_switched h page_name func_name _ args kwargs
             w current_page result s1) by done.
  simpl.
  by rewrite (handle_resolve_errors_unclassified func args kwargs _ e w2 Hf Hun).
Qed.

Lemma guard_around_handle_resolve_errors_witness :
  let final := page_manager.ensure_page
                 (scripted.api (Return (VStr "edit")) (Return (VBool true)))
                 "fusion" "failing"
                 (error_handler.handle_resolve_errors scripted.failing)
                 [Resolve] ∅ scripted.start in
  final.1 = Return (VDict (response_formatter.error
                             "Unexpected error: connection lost"
                             (VStr "INTERNAL_ERROR") VNone ∅))
  ∧ calls final.2 = [CallGetCurrentPage; CallOpenPage "fusion";
                     CallWrapped "failing"; CallOpenPage "edit"]
  ∧ host final.2 = tt.
Proof.
  apply (guard_around_handle_resolve_errors
           (scripted.api (Return (VStr "edit")) (Return (VBool true)))
           "fusion" "failing" scripted.failing [Resolve] ∅ scripted.start
           (mkWorld tt [CallGetCurrentPage; CallOpenPage "fusion";
                        CallWrapped "failing"])
           "edit" (VBool true) tt scripted.lost).
  - reflexivity.
  - reflexivity.
  - vm_compute. discriminate.
  - reflexivity.
  - reflexivity.
  - reflexivity.
  - by split_and!.
Defined.

(* ===================================================================== *)
(** ** Further properties of [switch_page] and the page names *)
(* ===================================================================== *)

Lemma lower_ascii_idempotent (c : ascii) :
  lower_ascii (lower_ascii c) = lower_ascii c.
Proof. by destruct c as [[] [] [] [] [] [] [] []]. Qed.

Lemma lower_idempotent (s : string) : lower (lower s) = lower s.
Proof.
  induction s as [|c s IH]; simpl; [done|].
  by rewrite lower_ascii_idempotent, IH.
Qed.

(** X8: with a handle, [switch_page] calls the host exactly when
    [validate_page_name] accepts the name: for an accepted name it makes the
    single call [OpenPage(page.lower())], for a rejected one it leaves host
    and call record untouched; the two page lists agree. *)
Theorem switch_page_agrees_with_validate_page_name {S : Type} (h : HostAPI S)
    (page : string) (w : world S) :
  let r := core_operations.switch_page h Resolve page w in
  (page_manager.validate_page_name page = true →
     calls r.2 = (calls w ++ [CallOpenPage (lower page)])%list
     ∧ host r.2 = (OpenPage h (lower page) (host w)).2)
  ∧ (page_manager.validate_page_name page = false → r.2 = w).
Proof.
  intros r. subst r.
  unfold core_operations.switch_page, page_manager.validate_page_name.
  fold page_manager.get_valid_pages.
  destruct (str_in (lower page) page_manager.get_valid_pages); simpl;
    (split; [|done]); [|done].
  intros _. unfold try_except, bind, host_call. simpl.
  destruct (OpenPage h (lower page) (host w)) as [[result|e] s']; simpl; [|done].
  by destruct (truthy result).
Qed.

(** X9: page names are matched without regard to letter case:
    [validate_page_name] gives the same verdict for a name and its lower-case
    form, and [switch_page] has the same effect on the host and makes the
    same calls for both (only the wording of the returned message keeps the
    caller's spelling). *)
Theorem switch_page_case_insensitive {S : Type} (h : HostAPI S)
    (resolve : pyobj) (page : string) (w : world S) :
  page_manager.validate_page_name (lower page) = page_manager.validate_page_name page
  ∧ (core_operations.switch_page h resolve (lower page) w).2
    = (core_operations.switch_page h resolve page w).2.
Proof.
  unfold page_manager.validate_page_name, core_operations.switch_page.
  fold page_manager.get_valid_pages.
  rewrite !lower_idempotent. split; [done|].
  destruct (str_in (lower page) page_manager.get_valid_pages);
    destruct resolve as [[]|]; simpl; try done.
  unfold try_except, bind, host_call. simpl.
  destruct (OpenPage h (lower page) (host w)) as [[result|e] s']; simpl; [|done].
  by destruct (truthy result).
Qed.

(* ===================================================================== *)
(** ** Further properties of the validators *)
(* ===================================================================== *)

(** X10: [validate_range] rejects every value that is not an [int], [float]
    or [bool] with the validation failure, and for a number other than NaN
    and bounds other than NaN it accepts exactly the closed interval
    [min_val <= value <= max_val]. *)
Theorem validate_range_closed_interval (py_repr : pyval → string)
    (value : pyval) (min_val max_val : number) (name : string) :
  is_nan min_val = false → is_nan max_val = false →
  (validation.as_number value = None →
     validation.validate_range py_repr value min_val max_val name
     = Raise (mk_exn validation.ValidationError
                (name +:+ " must be a number, got " +:+ type_name value)))
  ∧ (∀ v, validation.as_number value = Some v → is_nan v = false →
          (validation.validate_range py_repr value min_val max_val name = Return tt
           ↔ num_le min_val v = true ∧ num_le v max_val = true)).
Proof.
  intros Hlo Hhi. unfold validation.validate_range. split.
  - by intros ->.
  - intros v -> Hv.
    rewrite (num_le_not_lt min_val v), (num_le_not_gt v max_val) by done.
    destruct (num_lt v min_val), (num_gt v max_val); simpl; split;
      (done || by intros []).
Qed.

Lemma validate_range_closed_interval_witness :
  validation.validate_range (λ _, "") (VNum (NFloat (FFin 1 (-1)))) (NInt 0) (NInt 1)
    "opacity" = Return tt.
Proof.
  destruct (validate_range_closed_interval (λ _, "") (VNum (NFloat (FFin 1 (-1))))
              (NInt 0) (NInt 1) "opacity" eq_refl eq_refl) as [_ Hin].
  apply (Hin (NFloat (FFin 1 (-1))) eq_refl eq_refl).
  split; reflexivity.
Defined.

Lemma lstrip_empty (s : string) : lstrip s = "" ↔ all_space s = true.
Proof.
  induction s as [|c s IH]; simpl; [done|].
  destruct (is_space c); simpl; [done|]. split; discriminate.
Qed.

Lemma all_space_lstrip (s : string) : all_space (lstrip s) = all_space s.
Proof.
  induction s as [|c s IH]; simpl; [done|].
  destruct (is_space c) eqn:Hc; simpl; [by rewrite IH|]. by rewrite Hc.
Qed.

Lemma all_space_rev_app (s1 s2 : string) :
  all_space (String.rev_app s1 s2) = all_space s1 && all_space s2.
Proof.
  revert s2. induction s1 as [|c s1 IH]; intros s2; simpl; [done|].
  rewrite IH. simpl. by destruct (is_space c), (all_space s1), (all_space s2).
Qed.

Lemma rev_app_empty (s1 s2 : string) :
  String.rev_app s1 s2 = "" → s1 = "" ∧ s2 = "".
Proof.
  revert s2. induction s1 as [|c s1 IH]; intros s2; simpl; [by intros ->|].
  intros H. by apply IH in H as [_ ?].
Qed.

(** [strip] leaves nothing exactly when the string is all white space. *)
Lemma strip_empty (s : string) : strip s = "" ↔ all_space s = true.
Proof.
  unfold strip, String.rev. split.
  - intros [H _]%rev_app_empty. apply lstrip_empty in H.
    rewrite all_space_rev_app, all_space_lstrip in H.
    by destruct (all_space s).
  - intros H. apply lstrip_empty in H. by rewrite H.
Qed.

Lemma text_validate_non_empty_string_spec (str_strip : string → string)
    (value : pyval) (name : string) :
  text.validate_non_empty_string str_strip value name = Return tt
  ↔ ∃ s, value = VStr s ∧ str_strip s ≠ "".
Proof.
  unfold text.validate_non_empty_string. split.
  - destruct value as [| | |s| |]; try done. simpl.
    destruct (String.eqb_spec (str_strip s) "") as [He|Hne]; simpl; [done|].
    intros _. by exists s.
  - intros (s & -> & Hs). simpl.
    by destruct (String.eqb_spec (str_strip s) "").
Qed.

(** X11: whatever the interpreter's [str.strip()] removes,
    [validate_non_empty_string] accepts exactly the strings that [strip()]
    does not empty, and rejects every other value, the non-strings included,
    with the validation failure.  As [str.strip()] removes the ASCII white
    space of ASCII text, a string of ASCII characters is accepted exactly
    when it holds a character other than white space. *)
Theorem validate_non_empty_string_accepts (str_strip : string → string)
    (value : pyval) (name : string) :
  let result := text.validate_non_empty_string str_strip value name in
  (result = Return tt ↔ ∃ s, value = VStr s ∧ str_strip s ≠ "")
  ∧ (result ≠ Return tt →
     ∃ msg, result = Raise (mk_exn validation.ValidationError msg))
  ∧ (extends_ascii_strip str_strip →
     ∀ s, value = VStr s → ascii_only s = true →
          (result = Return tt ↔ all_space s = false)).
Proof.
  intros result. subst result. split_and!.
  - apply text_validate_non_empty_string_spec.
  - unfold text.validate_non_empty_string.
    destruct value as [| | |s| |]; try by eexists.
    destruct (negb _); [by eexists|done].
  - intros Hascii s -> Hs.
    rewrite text_validate_non_empty_string_spec. split.
    + intros (s' & [= <-] & Hne). rewrite (Hascii s Hs) in Hne.
      destruct (all_space s) eqn:Hall; [|done]. by apply strip_empty in Hall.
    + intros Hall. exists s. split; [done|]. rewrite (Hascii s Hs).
      intros He%strip_empty. congruence.
Qed.

Lemma validate_non_empty_string_accepts_witness :
  text.validate_non_empty_string strip (VStr " Merge ") "node_type" = Return tt
  ∧ ∃ msg, text.validate_non_empty_string strip (VStr "   ") "node_type"
           = Raise (mk_exn validation.ValidationError msg).
Proof.
  split.
  - destruct (validate_non_empty_string_accepts strip (VStr " Merge ") "node_type")
      as (_ & _ & Hascii).
    apply (Hascii (λ s _, eq_refl) " Merge "); reflexivity.
  - destruct (validate_non_empty_string_accepts strip (VStr "   ") "node_type")
      as (_ & Hreject & _).
    apply Hreject. discriminate.
Defined.

(** X12: the normalisation of [validate_choice] is idempotent: the member it
    returns is accepted again and returned as it is. *)
Theorem validate_choice_idempotent (py_repr : pyval → string)
    (value : string) (choices : list string) (name name' : string) (c : string) :
  validation.validate_choice py_repr (VStr value) choices name false = Return c →
  validation.validate_choice py_repr (VStr c) choices name' false = Return c.
Proof.
  intros Hc. apply validate_choice_first_match in Hc as (i & Hi & Hl & Hfirst).
  destruct (validate_choice_accepts py_repr c choices name') as [c' Hc'].
  { exists c. split; [|done]. apply list_elem_of_lookup. by exists i. }
  rewrite Hc'. f_equal.
  apply validate_choice_first_match in Hc' as (j & Hj & Hl' & Hfirst').
  destruct (Nat.lt_trichotomy i j) as [Hlt|[->|Hgt]].
  - by destruct (Hfirst' i c Hlt Hi).
  - congruence.
  - destruct (Hfirst j c' Hgt Hj). congruence.
Qed.

Lemma validate_choice_idempotent_witness :
  validation.validate_choice (λ _, "") (VStr "Auto") ["Auto"; "On"; "Off"] "mode" false
  = Return "Auto".
Proof.
  apply (validate_choice_idempotent (λ _, "") "AUTO" ["Auto"; "On"; "Off"]
           "mode" "mode" "Auto").
  reflexivity.
Defined.

(** X13: in case-sensitive mode [validate_choice] accepts exactly the members
    of the list and returns the value unchanged; whatever it accepts in that
    mode is also accepted in the default case-insensitive mode. *)
Theorem validate_choice_case_sensitive (py_repr : pyval → string)
    (value : string) (choices : list string) (name : string) :
  (∀ c, validation.validate_choice py_repr (VStr value) choices name true = Return c
        ↔ c = value ∧ value ∈ choices)
  ∧ (value ∈ choices →
       ∃ c, validation.validate_choice py_repr (VStr value) choices name false
            = Return c).
Proof.
  split.
  - intros c. unfold validation.validate_choice.
    destruct (str_in value choices) eqn:Hin; simpl.
    + apply str_in_spec in Hin. split; [by intros [= <-]|by intros [-> _]].
    + split; [done|]. intros [_ Hv%str_in_spec]. congruence.
  - intros Hv. apply validate_choice_accepts. by exists value.
Qed.

(** The two unreachable exits of the case-insensitive branch. *)
Lemma validate_choice_raises_validation_error py_repr value choices name cs e :
  validation.validate_choice py_repr value choices name cs = Raise e →
  exn_class e = validation.ValidationError.
Proof.
  unfold validation.validate_choice.
  destruct value as [| | |s| |]; try by intros [= <-].
  destruct cs.
  - destruct (negb _); by intros [= <-].
  - destruct (str_in _ _) eqn:Hin; simpl; [|by intros [= <-]].
    apply str_in_spec in Hin.
    destruct (index_is_Some _ _ Hin) as [i Hi]. rewrite Hi.
    apply index_Some in Hi as [Hi _]. rewrite list_lookup_fmap in Hi.
    by destruct (choices !! i).
Qed.

(** X14: every failure signalled by [validate_range], [validate_choice] (in
    either mode), [validate_positive_integer], [validate_non_empty_string]
    and [validate_file_extension] is an instance of the module's
    [ValidationError]; in particular [validate_choice] never fails with the
    [ValueError] of [list.index] or an [IndexError]. *)
Theorem validators_fail_with_validation_error (py_repr : pyval → string)
    (splitext_ext : string → string) (value : pyval) (name : string) (e : exn) :
  (∀ lo hi, validation.validate_range py_repr value lo hi name = Raise e →
            exn_class e = validation.ValidationError)
  ∧ (∀ choices cs,
       validation.validate_choice py_repr value choices name cs = Raise e →
       exn_class e = validation.ValidationError)
  ∧ (validation.validate_positive_integer py_repr value name = Raise e →
       exn_class e = validation.ValidationError)
  ∧ (validation.validate_non_empty_string value name = Raise e →
       exn_class e = validation.ValidationError)
  ∧ (∀ allowed,
       validation.validate_file_extension py_repr splitext_ext value allowed name
       = Raise e →
       exn_class e = validation.ValidationError).
Proof.
  split_and!.
  - intros lo hi H. apply (validators_raise_validation_error py_repr value name).
    left. by exists lo, hi.
  - intros choices cs. apply validate_choice_raises_validation_error.
  - intros H. apply (validators_raise_validation_error py_repr value name). auto.
  - intros H. apply (validators_raise_validation_error py_repr value name). auto.
  - intros allowed. unfold validation.validate_file_extension.
    destruct value; try by intros [= <-].
    destruct (negb _); by intros [= <-].
Qed.

(* --------------------------------------------------------------------- *)
(** *** [validate_params] *)

Lemma run_validators_pass {A B} (validators : list (string * (A → outcome B)))
    (arguments : gmap string A) :
  (∀ p v x, (p, v) ∈ validators → arguments !! p = Some x → returns (v x)) →
  validation.run_validators validators arguments = None.
Proof.
  induction validators as [|[p v] rest IH]; intros Hall; simpl; [done|].
  assert (Hrest : validation.run_validators rest arguments = None).
  { apply IH. intros p' v' x Hin. apply Hall. by right. }
  destruct (arguments !! p) as [x|] eqn:Hx; [|done].
  destruct (Hall p v x) as [b ->]; [by left|done|done].
Qed.

Lemma run_validators_app {A B} (pre rest : list (string * (A → outcome B)))
    (arguments : gmap string A) :
  (∀ p v x, (p, v) ∈ pre → arguments !! p = Some x → returns (v x)) →
  validation.run_validators (pre ++ rest) arguments
  = validation.run_validators rest arguments.
Proof.
  induction pre as [|[p v] pre IH]; intros Hall; simpl; [done|].
  assert (Hpre : validation.run_validators (pre ++ rest) arguments
                 = validation.run_validators rest arguments).
  { apply IH. intros p' v' x Hin. apply Hall. by right. }
  destruct (arguments !! p) as [x|] eqn:Hx; [|done].
  destruct (Hall p v x) as [b ->]; [by left|done|done].
Qed.

(** X15: when every validator whose parameter is among the bound arguments
    accepts its value, the decorated function behaves exactly as the plain
    function; validators naming a parameter that is not bound are skipped. *)
Theorem validate_params_all_pass {St A B : Type}
    (validators : list (string * (A → outcome B)))
    (arguments : gmap string A) (call : M St pyval) :
  (∀ p v x, (p, v) ∈ validators → arguments !! p = Some x → returns (v x)) →
  validation.validate_params validators (Return arguments) call = call.
Proof.
  intros Hall. unfold validation.validate_params.
  by rewrite run_validators_pass.
Qed.

Lemma validate_params_all_pass_witness :
  validation.validate_params (St := unit)
    [("opacity", λ x, validation.validate_range (λ _, "") x (NInt 0) (NInt 1) "opacity");
     ("size", λ x, validation.validate_range (λ _, "") x (NInt 1) (NInt 10) "size")]
    (Return {["opacity" := VNum (NInt 1)]}) (ret (VStr "done"))
  = ret (VStr "done").
Proof.
  apply validate_params_all_pass. intros p v x Hin Hx.
  apply elem_of_cons in Hin as [[= -> ->]|Hin].
  - vm_compute in Hx. injection Hx as <-. by exists tt.
  - apply elem_of_cons in Hin as [[= -> ->]|Hin]; [|by apply elem_of_nil in Hin].
    vm_compute in Hx. discriminate.
Defined.

(** X16: the decorated function stops at the first validator, in the order
    the validators were given, that rejects a bound argument: the wrapped
    function is not run, the state is untouched, and the result is
    [{"error": "Invalid <param>: <message>"}] for a validation failure and
    [{"error": "Validation error for <param>: <message>"}] for any other
    exception. *)
Theorem validate_params_first_failure {St A B : Type}
    (pre post : list (string * (A → outcome B)))
    (param_name : string) (validator : A → outcome B) (value : A) (e : exn)
    (arguments : gmap string A) (call : M St pyval) (s : St) :
  (∀ p v x, (p, v) ∈ pre → arguments !! p = Some x → returns (v x)) →
  arguments !! param_name = Some value →
  validator value = Raise e →
  validation.validate_params (pre ++ (param_name, validator) :: post)
    (Return arguments) call s
  = (Return (VDict {["error" :=
       VStr ((if isinstance e validation.ValidationError
              then "Invalid " +:+ param_name
              else "Validation error for " +:+ param_name)
             +:+ ": " +:+ exn_str e)]}), s).
Proof.
  intros Hpre Harg Hfail. unfold validation.validate_params.
  rewrite run_validators_app by done. simpl. rewrite Harg, Hfail.
  destruct (isinstance e validation.ValidationError); simpl; unfold ret;
    by rewrite <-?(assoc_L String.append).
Qed.

Lemma validate_params_first_failure_witness :
  validation.validate_params (St := unit)
    ([("name", λ x, validation.validate_non_empty_string x "name")]
       ++ ("opacity", λ x, validation.validate_range (λ _, "?") x (NInt 0) (NInt 1)
                             "opacity") :: [])
    (Return {["name" := VStr "Merge1"; "opacity" := VNum (NInt 5)]})
    (ret (VStr "done")) tt
  = (Return (VDict {["error" :=
       VStr "Invalid opacity: opacity must be between ? and ?, got ?"]}), tt).
Proof.
  apply (validate_params_first_failure
           [("name", λ x, validation.validate_non_empty_string x "name")] []
           "opacity"
           (λ x, validation.validate_range (λ _, "?") x (NInt 0) (NInt 1) "opacity")
           (VNum (NInt 5))
           (mk_exn validation.ValidationError
              "opacity must be between ? and ?, got ?")).
  - intros p v x Hin Hx.
    apply elem_of_cons in Hin as [[= -> ->]|Hin]; [|by apply elem_of_nil in Hin].
    vm_compute in Hx. injection Hx as <-. by exists tt.
  - reflexivity.
  - reflexivity.
Defined.

(* --------------------------------------------------------------------- *)
(** *** [validate_file_extension] *)

Lemma dotted_idempotent (ext : string) : dotted (dotted ext) = dotted ext.
Proof.
  unfold dotted. destruct (String.prefix "." ext) eqn:Hp; [by rewrite Hp|].
  simpl. by destruct ext.
Qed.

Lemma text_normalize_extension_dotted (str_lower : string → string)
    (ext : string) :
  text.normalize_extension str_lower ext = str_lower (dotted ext).
Proof.
  unfold text.normalize_extension, dotted.
  by destruct (String.prefix "." ext).
Qed.

Lemma dotted_nonempty (ext : string) : dotted ext ≠ "".
Proof.
  unfold dotted. destruct (String.prefix "." ext) eqn:Hp; [|done].
  by destruct ext.
Qed.

(** X17: whatever the interpreter's [str.lower()] does to text,
    [validate_file_extension] accepts a path exactly when the lower-cased
    extension of the path equals the lower-cased form of an allowed extension
    with its leading dot supplied, so an allowed extension may be written
    with or without the dot; and as [str.lower()] maps no text but the empty
    one to the empty text, a path without extension is rejected whatever the
    allowed list is. *)
Theorem validate_file_extension_accepts (str_lower : string → string)
    (py_repr : pyval → string) (splitext_ext : string → string) (path : string)
    (allowed_extensions : list string) (name : string) :
  let check l := text.validate_file_extension str_lower py_repr splitext_ext
                   (VStr path) l name in
  (check allowed_extensions = Return tt
   ↔ ∃ ext, ext ∈ allowed_extensions
            ∧ str_lower (splitext_ext path) = str_lower (dotted ext))
  ∧ (check (dotted <$> allowed_extensions) = Return tt
     ↔ check allowed_extensions = Return tt)
  ∧ (keeps_emptiness str_lower → splitext_ext path = "" →
     check allowed_extensions ≠ Return tt).
Proof.
  intros check.
  assert (Hiff : ∀ l, check l = Return tt
                      ↔ ∃ ext, ext ∈ l ∧ str_lower (splitext_ext path)
                                         = str_lower (dotted ext)).
  { intros l. subst check. unfold text.validate_file_extension.
    destruct (str_in _ _) eqn:Hin; simpl.
    - apply str_in_spec, list_elem_of_fmap in Hin as (ext & Hext & Hin).
      rewrite text_normalize_extension_dotted in Hext. split; [|done].
      intros _. by exists ext.
    - split; [done|]. intros (ext & Hin' & Hext).
      assert (str_in (str_lower (splitext_ext path))
                (text.normalize_extension str_lower <$> l) = true)
        as Hyes; [|congruence].
      apply str_in_spec, list_elem_of_fmap. exists ext.
      by rewrite text_normalize_extension_dotted. }
  split_and!.
  - apply Hiff.
  - rewrite !Hiff. split.
    + intros (ext & (ext' & -> & Hin)%list_elem_of_fmap & Heq).
      exists ext'. by rewrite dotted_idempotent in Heq.
    + intros (ext & Hin & Heq). exists (dotted ext). split.
      * apply list_elem_of_fmap. by exists ext.
      * by rewrite dotted_idempotent.
  - intros Hkeeps Hempty [ext [_ Heq]]%Hiff. rewrite Hempty in Heq.
    rewrite (proj2 (Hkeeps "") eq_refl) in Heq. symmetry in Heq.
    apply (proj1 (Hkeeps (dotted ext))) in Heq.
    by apply (dotted_nonempty ext).
Qed.

Lemma validate_file_extension_accepts_witness :
  text.validate_file_extension lower (λ _, "") (λ _, ".MOV") (VStr "clip.MOV")
    ["mov"; ".mp4"] "path" = Return tt
  ∧ text.validate_file_extension lower (λ _, "") (λ _, "") (VStr "clip")
      ["mov"; ".mp4"] "path" ≠ Return tt.
Proof.
  split.
  - destruct (validate_file_extension_accepts lower (λ _, "") (λ _, ".MOV")
                "clip.MOV" ["mov"; ".mp4"] "path") as (Hiff & _).
    apply Hiff. exists "mov". split; [|reflexivity].
    apply list_elem_of_In. left. reflexivity.
  - destruct (validate_file_extension_accepts lower (λ _, "") (λ _, "")
                "clip" ["mov"; ".mp4"] "path") as (_ & _ & Hempty).
    apply Hempty; [|reflexivity]. intros s. by destruct s.
Defined.

(* ===================================================================== *)
(** ** Further properties of the error handler *)
(* ===================================================================== *)

Lemma append_length (s1 s2 : string) :
  String.length (s1 +:+ s2) = (String.length s1 + String.length s2)%nat.
Proof. induction s1 as [|c s1 IH]; simpl; [done|]. by rewrite IH. Qed.

Lemma append_eq_self (s1 s2 : string) : s1 +:+ s2 = s1 → s2 = "".
Proof.
  intros H. apply (f_equal String.length) in H. rewrite append_length in H.
  destruct s2; [done|]. simpl in H. lia.
Qed.

Lemma join_nonempty (sep x : string) (l : list string) :
  x ≠ "" → join sep (x :: l) ≠ "".
Proof. intros Hx. destruct l; simpl; [done|]. by destruct x. Qed.

(** X18: [create_context_error] returns the base message unchanged exactly
    when the context has no entry whose value is not [None] (in particular
    for an empty context); otherwise it appends " (Context: ...)" to it. *)
Theorem create_context_error_unchanged (py_repr : pyval → string)
    (base_message : string) (context : list (string * pyval)) :
  error_handler.create_context_error py_repr base_message context = base_message
  ↔ ∀ k v, (k, v) ∈ context → v = VNone.
Proof.
  unfold error_handler.create_context_error.
  destruct (List.filter (λ kv, negb (is_None kv.2)) context) as [|[k v] rest] eqn:Hf.
  - simpl. split; [|done]. intros _ k v Hin.
    destruct (is_None v) eqn:Hv; [by destruct v|].
    assert (In (k, v) (List.filter (λ kv, negb (is_None kv.2)) context)) as Hin'.
    { apply filter_In. split; [by apply list_elem_of_In|]. simpl. by rewrite Hv. }
    rewrite Hf in Hin'. by destruct Hin'.
  - assert (In (k, v) (List.filter (λ kv, negb (is_None kv.2)) context)) as Hin
      by (rewrite Hf; by left).
    apply filter_In in Hin as [Hin Hv]. simpl in Hv.
    rewrite fmap_cons.
    pose proof (join_nonempty ", " ((k, v).1 +:+ "=" +:+ validation.fmt py_repr (k, v).2)
                  ((λ kv, kv.1 +:+ "=" +:+ validation.fmt py_repr kv.2) <$> rest))
      as Hne.
    destruct (join _ _) as [|c ctx] eqn:Hj.
    { destruct Hne; [|done]. simpl. by destruct k. }
    simpl. split.
    + intros H%append_eq_self. done.
    + intros Hall. apply list_elem_of_In in Hin.
      rewrite (Hall k v Hin) in Hv. done.
Qed.






Lemma handle_resolve_errors_returns {St} (func : pyfunc St) args kwargs s :
  returns (error_handler.handle_resolve_errors func args kwargs s).1.
Proof.
  unfold error_handler.handle_resolve_errors.
  apply try_except_returns. intros e s'.
  destruct (isinstance e _); [by eexists|].
  destruct (isinstance e _); [by eexists|].
  destruct (isinstance e _); by eexists.
Qed.

(** X20: applying the error handler twice is the same as applying it once. *)
Theorem handle_resolve_errors_idempotent {St : Type} (func : pyfunc St)
    (args : list pyobj) (kwargs : gmap string pyobj) (s : St) :
  error_handler.handle_resolve_errors (error_handler.handle_resolve_errors func)
    args kwargs s
  = error_handler.handle_resolve_errors func args kwargs s.
Proof.
  destruct (handle_resolve_errors_returns func args kwargs s) as [v Hv].
  destruct (error_handler.handle_resolve_errors func args kwargs s) as [r s'] eqn:Hh.
  simpl in Hv. subst r. by apply handle_resolve_errors_passes_through.
Qed.

(** X21: the two connection checks, [validate_resolve_state] of the error
    handler and [validate_resolve_connection] of the validation module,
    accept the same handles and leave the same state; when they fail they
    carry the same message but different classes, the connection failure for
    the first and the validation failure for the second. *)
Theorem connection_checks_agree {S : Type} (h : HostAPI S) (resolve : pyobj)
    (w : world S) :
  let a := error_handler.validate_resolve_state h resolve w in
  let b := validation.validate_resolve_connection h resolve w in
  a.2 = b.2
  ∧ ((a.1 = Return tt ∧ b.1 = Return tt)
     ∨ ∃ msg, a.1 = Raise (mk_exn error_handler.ConnectionError msg)
              ∧ b.1 = Raise (mk_exn validation.ValidationError msg)).
Proof.
  unfold error_handler.validate_resolve_state, validation.validate_resolve_connection.
  destruct resolve as [v|]; simpl.
  - destruct v; simpl; (split; [done|]); right; by eexists.
  - unfold try_except, bind, host_call. simpl.
    destruct (GetCurrentPage h (host w)) as [page|e]; simpl; (split; [done|]).
    + by left.
    + right. by eexists.
Qed.

(* ===================================================================== *)
(** ** Properties of the Fusion helpers *)
(* ===================================================================== *)

(** The search of [validate_choice] and the loop of [validate_blend_mode]
    select the same member. *)
Lemma index_lookup_find (value : string) (choices : list string) :
  (index (lower value) (lower <$> choices) ≫= λ i, choices !! i)
  = List.find (λ c, String.eqb (lower value) (lower c)) choices.
Proof.
  induction choices as [|c choices IH]; simpl; [done|].
  rewrite (String.eqb_sym (lower value) (lower c)).
  destruct (String.eqb (lower c) (lower value)); simpl; [done|].
  rewrite <-IH. by destruct (index _ _).
Qed.

Lemma validate_choice_as_find py_repr (value : string) choices name m :
  validation.validate_choice py_repr (VStr value) choices name false = Return m
  ↔ List.find (λ c, String.eqb (lower value) (lower c)) choices = Some m.
Proof.
  rewrite <-index_lookup_find. unfold validation.validate_choice.
  destruct (str_in _ _) eqn:Hin; simpl.
  - destruct (index _ _) as [i|]; simpl; [|done].
    destruct (choices !! i); split; by intros [= ->].
  - split; [done|].
    destruct (index _ _) as [i|] eqn:Hi; simpl; [|done].
    apply index_Some in Hi as [Hi _].
    assert (str_in (lower value) (lower <$> choices) = true); [|congruence].
    apply str_in_spec, list_elem_of_lookup. by exists i.
Qed.

(** X22: [validate_blend_mode] accepts the same names as [validate_choice]
    over the thirteen blend mode names and returns the same member; what it
    returns is always a key of [get_available_blend_modes], so the lookup
    that follows it in [add_merge_node] cannot fail; and each of the thirteen
    names is returned unchanged. *)
Theorem validate_blend_mode_agrees_with_validate_choice (py_repr : pyval → string)
    (blend_mode : string) (name : string) :
  let names := fusion_utils.get_available_blend_modes.*1 in
  (∀ m, fusion_utils.validate_blend_mode py_repr blend_mode = Return m
        ↔ validation.validate_choice py_repr (VStr blend_mode) names name false
          = Return m)
  ∧ (∀ m, fusion_utils.validate_blend_mode py_repr blend_mode = Return m →
          ∃ n, (m, n) ∈ fusion_utils.get_available_blend_modes)
  ∧ (∀ e, fusion_utils.validate_blend_mode py_repr blend_mode = Raise e →
          exn_class e = validation.ValidationError)
  ∧ Forall (λ m, fusion_utils.validate_blend_mode py_repr m = Return m) names.
Proof.
  intros names.
  assert (Hfind : ∀ m, fusion_utils.validate_blend_mode py_repr blend_mode = Return m
                       ↔ List.find (λ c, String.eqb (lower blend_mode) (lower c)) names
                         = Some m).
  { intros m. unfold fusion_utils.validate_blend_mode. fold names.
    destruct (List.find _ names); split; by intros [= ->]. }
  split_and!.
  - intros m. by rewrite Hfind, validate_choice_as_find.
  - intros m [Hin _]%Hfind%find_some.
    apply list_elem_of_In, list_elem_of_fmap in Hin as ([m' n] & -> & Hin).
    by exists n.
  - intros e. unfold fusion_utils.validate_blend_mode.
    destruct (List.find _ _); by intros [= <-].
  - by repeat constructor.
Qed.

(** X23: every node type listed by [get_node_categories] passes
    [validate_node_type]: the catalogue never advertises a name that
    [add_fusion_node] would refuse as an invalid node type. *)
Theorem node_categories_are_valid (category : string) (names : list string)
    (node_type : string) :
  (category, names) ∈ fusion_utils.get_node_categories →
  node_type ∈ names →
  fusion_utils.validate_node_type (VStr node_type) = true.
Proof.
  intros Hcat Hname.
  assert (Hall : forallb (λ entry,
                    forallb (λ n, fusion_utils.validate_node_type (VStr n)) entry.2)
                   fusion_utils.get_node_categories = true) by by vm_compute.
  rewrite forallb_forall in Hall.
  apply list_elem_of_In, Hall in Hcat. simpl in Hcat.
  rewrite forallb_forall in Hcat. by apply Hcat, list_elem_of_In.
Qed.

Lemma node_categories_are_valid_witness :
  fusion_utils.validate_node_type (VStr "Text+") = true.
Proof.
  apply (node_categories_are_valid "generators"
           ["Background"; "Checkerboard"; "Ellipse"; "Noise"; "Plasma";
            "Rectangle"; "Text+"; "TextPlus"; "WaveForm"] "Text+").
  - apply list_elem_of_In. left. reflexivity.
  - apply list_elem_of_In. do 6 right. left. reflexivity.
Defined.

(* ===================================================================== *)
(** ** Further properties of the operations *)
(* ===================================================================== *)

(** X24: [set_cache_mode] never raises and always returns a string, whatever
    the handle is and whatever the host calls do. *)
Theorem set_cache_mode_returns_string {S : Type} (h : HostAPI S) (resolve : pyobj)
    (mode : string) (w : world S) :
  ∃ msg, (cache_management.set_cache_mode h resolve mode w).1 = Return (VStr msg).
Proof.
  unfold cache_management.set_cache_mode.
  destruct resolve as [v|].
  - destruct v; by eexists.
  - unfold try_except, bind, call_GetProjectManager, call_GetCurrentProject,
      call_SetSetting, host_step. simpl.
    destruct (GetProjectManager h (host w)) as [[[]|e] s1]; simpl; try by eexists.
    destruct (GetCurrentProject h s1) as [[[]|e] s2]; simpl; try by eexists.
    destruct (negb _); simpl; [by eexists|].
    destruct (SetSetting h _ mode s2) as [[result|e] s3]; simpl; [|by eexists].
    destruct (truthy result); by eexists.
Qed.

(** X25: [set_cache_mode] compares the mode with 'Auto', 'On', 'Off' exactly
    (letter case matters) and only after it has asked the host for the
    project manager and the current project: a mode outside the list is
    reported as invalid only when both are there, the host state is then the
    one those two lookups left (no setting is written), and without a project
    manager or an open project the missing object is reported instead. *)
Theorem set_cache_mode_invalid_mode {S : Type} (h : HostAPI S) (mode : string)
    (w : world S) :
  str_in mode ["Auto"; "On"; "Off"] = false →
  let r := cache_management.set_cache_mode h Resolve mode w in
  (∀ s1, GetProjectManager h (host w) = (Return false, s1) →
         r = (Return (VStr "Error: Failed to get Project Manager"),
              mkWorld s1 (calls w)))
  ∧ (∀ s1 s2, GetProjectManager h (host w) = (Return true, s1) →
              GetCurrentProject h s1 = (Return false, s2) →
              r = (Return (VStr "Error: No project currently open"),
                   mkWorld s2 (calls w)))
  ∧ (∀ s1 s2, GetProjectManager h (host w) = (Return true, s1) →
              GetCurrentProject h s1 = (Return true, s2) →
              r = (Return (VStr "Error: Invalid cache mode. Must be one of: Auto, On, Off"),
                   mkWorld s2 (calls w))).
Proof.
  intros Hmode r. subst r. unfold cache_management.set_cache_mode.
  cbv zeta. rewrite Hmode.
  unfold try_except, bind, call_GetProjectManager, call_GetCurrentProject,
    host_step. simpl. split_and!.
  - by intros s1 ->.
  - intros s1 s2 ->. simpl. by intros ->.
  - intros s1 s2 ->. simpl. by intros ->.
Qed.

Lemma set_cache_mode_invalid_mode_witness :
  cache_management.set_cache_mode studio.api Resolve "auto" (studio.on_page "edit")
  = (Return (VStr "Error: Invalid cache mode. Must be one of: Auto, On, Off"),
     studio.on_page "edit").
Proof.
  destruct (set_cache_mode_invalid_mode studio.api "auto" (studio.on_page "edit")
              eq_refl) as (_ & _ & Hinvalid).
  apply (Hinvalid (studio.mk "edit" false) (studio.mk "edit" false)); reflexivity.
Defined.

(** X26: the body of [add_fusion_node] never raises: every exception of the
    validators or of the host is turned into a returned value. *)
Theorem add_fusion_node_never_raises {S : Type} (h : HostAPI S) (resolve : pyobj)
    (node_type name pos_x pos_y : pyval) (w : world S) :
  ∃ v, (fusion_operations_clean.add_fusion_node h resolve
          node_type name pos_x pos_y w).1 = Return v.
Proof.
  unfold fusion_operations_clean.add_fusion_node.
  apply try_except_returns. intros e s'.
  destruct (isinstance e _); by eexists.
Qed.

(** With the ASCII [strip] the body of [add_fusion_node] in [text] is the
    one of [fusion_operations_clean]. *)
Lemma text_add_fusion_node_ascii {S : Type} (h : HostAPI S) (resolve : pyobj)
    (node_type name pos_x pos_y : pyval) :
  text.add_fusion_node strip h resolve node_type name pos_x pos_y
  = fusion_operations_clean.add_fusion_node h resolve node_type name pos_x pos_y.
Proof. reflexivity. Qed.

(** X27: with a live handle the body of [add_fusion_node] reports a bad node
    type in two different shapes and never reaches the composition: a value
    that is not a string, or a string that [str.strip()] empties, gives an
    envelope with [error_code] "VALIDATION_ERROR"; a string that [strip()]
    does not empty and that [validate_node_type] refuses (it holds one of the
    forbidden characters) gives the envelope "Invalid node type: ..." without
    any [error_code].  In both cases the only host call is the connection
    probe.  This holds whatever the interpreter's [str.strip()] removes. *)
Theorem add_fusion_node_bad_node_type {S : Type} (str_strip : string → string)
    (h : HostAPI S) (node_type name pos_x pos_y : pyval) (w : world S)
    (page : pyval) :
  GetCurrentPage h (host w) = Return page →
  let r := text.add_fusion_node str_strip h Resolve
             node_type name pos_x pos_y w in
  ((∀ s, node_type = VStr s → str_strip s = "") →
     r.2 = log CallGetCurrentPage w
     ∧ ∃ msg, r.1 = Return (VDict (response_formatter.error msg
                                     (VStr "VALIDATION_ERROR") VNone ∅)))
  ∧ (∀ s, node_type = VStr s → str_strip s ≠ "" →
          text.validate_node_type str_strip node_type = false →
          r = (Return (VDict (response_formatter.error
                                ("Invalid node type: " +:+ s) VNone VNone ∅)),
               log CallGetCurrentPage w)).
Proof.
  intros Hpage r. subst r. unfold text.add_fusion_node.
  unfold try_except, bind, validation.validate_resolve_connection,
    call_GetCurrentPage, host_call, lift, log, try_except, bind.
  rewrite Hpage. simpl.
  split.
  - intros Hblank.
    assert (∃ msg, text.validate_non_empty_string str_strip node_type "node_type"
                   = Raise (mk_exn validation.ValidationError msg)) as [msg ->].
    { unfold text.validate_non_empty_string.
      destruct node_type as [| | |s| |]; try by eexists.
      rewrite (Hblank s eq_refl). by eexists. }
    simpl. split; [done|]. by exists msg.
  - intros s -> Hs Hinvalid.
    assert (text.validate_non_empty_string str_strip (VStr s) "node_type"
            = Return tt)
      as -> by (apply text_validate_non_empty_string_spec; by exists s).
    by rewrite Hinvalid.
Qed.

Lemma add_fusion_node_bad_node_type_witness :
  text.add_fusion_node strip studio.api Resolve
    (VStr "Merge Node") VNone (VNum (NInt 0)) (VNum (NInt 0)) (studio.on_page "edit")
  = (Return (VDict (response_formatter.error "Invalid node type: Merge Node"
                      VNone VNone ∅)),
     mkWorld (studio.mk "edit" false) [CallGetCurrentPage]).
Proof.
  destruct (add_fusion_node_bad_node_type strip studio.api (VStr "Merge Node")
              VNone (VNum (NInt 0)) (VNum (NInt 0)) (studio.on_page "edit")
              (VStr "edit") eq_refl) as [_ Hinvalid].
  apply (Hinvalid "Merge Node"); [reflexivity|discriminate|reflexivity].
Defined.
